(** * DealPulse: the product-extraction adapters

    A shallow embedding of [app/adapters] (factory.py, base.py,
    html_adapter.py, jsonld_adapter.py) and the properties of the
    extraction chain: fallback and isolation in the factory, price and
    name validation in the two adapters, the order in which candidates
    are tried.

    Conventions.
    - A Python [str] is a list of Unicode code points ([pystr]); ASCII
      literals are written [lit "..."].
    - An exception is a value of [exn]; a call that may raise returns a
      [result].  Only subclasses of [Exception] are modelled (the
      interpreter signals [KeyboardInterrupt] and [SystemExit], which
      [except Exception] lets through, are not).
    - A Python [float] is modelled by the exact rational value of the
      binary64 number ([Fin q]), or by [PosInf], [NegInf], [NaN];
      [binary64] rounds a rational to nearest-even the way [float(str)]
      and [float(int)] do.  The sign of zero is not modelled.
    - Decimal digits are the ASCII digits; the other characters of
      Unicode category Nd, which [\d] and [float()] accept as well, are
      outside the model.
    - requests, BeautifulSoup, extruct and urllib are collaborators:
      their results are the fields of [Env].  The two adapters hold a
      session each, so each has its own [get]. *)

From Stdlib Require Import ZArith NArith QArith List Bool String Ascii Lia.
Import ListNotations.

Set Implicit Arguments.
Set Warnings "-register-all".
Close Scope Q_scope.

(** ** Python strings *)

Module Str.

Definition pychar := N.
Definition pystr := list pychar.
Bind Scope N_scope with pychar.

Definition lit (s : string) : pystr := map N_of_ascii (list_ascii_of_string s).

Definition char_eqb (a b : pychar) : bool := N.eqb a b.

Fixpoint eqb (a b : pystr) : bool :=
  match a, b with
  | [], [] => true
  | x :: a', y :: b' => char_eqb x y && eqb a' b'
  | _, _ => false
  end.

Definition in_range (lo hi c : N) : bool := (N.leb lo c && N.leb c hi)%bool.

(** [str.isspace] for one character, which is also what [\s] matches
    in a [str] pattern. *)
Definition is_space (c : pychar) : bool :=
  in_range 9 13 c || in_range 28 32 c || N.eqb c 133 || N.eqb c 160
  || N.eqb c 5760 || in_range 8192 8202 c || N.eqb c 8232 || N.eqb c 8233
  || N.eqb c 8239 || N.eqb c 8287 || N.eqb c 12288.

Definition is_digit (c : pychar) : bool := in_range 48 57 c.

Definition digit_val (c : pychar) : Z := Z.of_N c - 48.

Section StripBy.

(** What counts as whitespace: [str.strip] and [float] do not agree. *)
Variable space : pychar -> bool.

Fixpoint lstrip_by (s : pystr) : pystr :=
  match s with
  | c :: t => if space c then lstrip_by t else s
  | [] => []
  end.

Definition rstrip_by (s : pystr) : pystr := rev (lstrip_by (rev s)).

Definition strip_by (s : pystr) : pystr := rstrip_by (lstrip_by s).

End StripBy.

(** [s.strip()] *)
Definition strip (s : pystr) : pystr := strip_by is_space s.

(** [s.replace(c, '')] for a one-character [c] *)
Definition remove_char (c : pychar) (s : pystr) : pystr :=
  filter (fun x => negb (char_eqb x c)) s.

Fixpoint startswith (s p : pystr) : bool :=
  match p, s with
  | [], _ => true
  | x :: p', y :: s' => char_eqb x y && startswith s' p'
  | _ :: _, [] => false
  end.

(** [p in s] for strings *)
Fixpoint contains (p s : pystr) : bool :=
  startswith s p ||
  match s with
  | [] => false
  | _ :: t => contains p t
  end.

(** [s.split(c)] for a one-character separator *)
Fixpoint split (c : pychar) (s : pystr) : list pystr :=
  match s with
  | [] => [[]]
  | x :: t =>
      if char_eqb x c then [] :: split c t
      else match split c t with
           | w :: ws => (x :: w) :: ws
           | [] => [[x]]
           end
  end.

(** [' '.join(l)] *)
Fixpoint join_space (l : list pystr) : pystr :=
  match l with
  | [] => []
  | [w] => w
  | w :: ws => w ++ 32%N :: join_space ws
  end.

(** [s.lower()] on the ASCII letters *)
Definition lower_char (c : pychar) : pychar :=
  if in_range 65 90 c then (c + 32)%N else c.

Definition lower (s : pystr) : pystr := map lower_char s.

(** longest prefix whose characters satisfy [p], and the rest *)
Fixpoint span (p : pychar -> bool) (s : pystr) : pystr * pystr :=
  match s with
  | c :: t => if p c then let (a, b) := span p t in (c :: a, b) else ([], s)
  | [] => ([], [])
  end.

End Str.
Export Str.

(** ** Exceptions *)

Inductive exn : Type :=
| ValueError
| TypeError
| OverflowError
| AttributeError
| RequestException
| OtherException (msg : string).

Inductive result (A : Type) : Type :=
| Ok (a : A)
| Raise (e : exn).

Arguments Ok {A} a.
Arguments Raise {A} e.

Definition bind {A B : Type} (r : result A) (k : A -> result B) : result B :=
  match r with
  | Ok a => k a
  | Raise e => Raise e
  end.

Notation "x <- r ;; k" := (bind r (fun x => k))
  (at level 61, r at next level, right associativity).

(** [except (ValueError, TypeError)] *)
Definition is_value_or_type_error (e : exn) : bool :=
  match e with
  | ValueError | TypeError => true
  | _ => false
  end.

(** ** Floats *)

Inductive pyfloat : Type :=
| Fin (q : Q)
| PosInf
| NegInf
| NaN.

Module Float.

(** [floor (log2 (n / d))] for positive [n], [d] *)
Definition floor_log2 (n d : Z) : Z :=
  let e0 := (Z.log2 n - Z.log2 d)%Z in
  let above :=
    if (0 <=? e0)%Z then (d * 2 ^ e0 <=? n)%Z else (d <=? n * 2 ^ (- e0))%Z in
  if above then e0 else (e0 - 1)%Z.

(** [n / d] rounded to the nearest integer, ties to even ([d > 0]) *)
Definition round_half_even (n d : Z) : Z :=
  let q := (n / d)%Z in
  let r := (n mod d)%Z in
  if (2 * r <? d)%Z then q
  else if (d <? 2 * r)%Z then (q + 1)%Z
  else if Z.even q then q else (q + 1)%Z.

(** The exact value [m * 2^p] *)
Definition scaled (m p : Z) : Q :=
  if (0 <=? p)%Z then inject_Z (m * 2 ^ p) else Qred (Qmake m (Z.to_pos (2 ^ (- p)))).

(** Round a rational to binary64, nearest-even, overflow to infinity:
    53 bits of precision, exponents down to the subnormal quantum
    [2^-1074], largest finite value below [2^1024]. *)
Definition binary64 (q : Q) : pyfloat :=
  let n := Z.abs (Qnum q) in
  let d := Zpos (Qden q) in
  if (n =? 0)%Z then Fin 0
  else
    let e := floor_log2 n d in
    let p := Z.max (e - 52) (-1074) in
    let m := if (0 <=? p)%Z then round_half_even n (d * 2 ^ p)
             else round_half_even (n * 2 ^ (- p)) d in
    if ((0 <=? p) && (2 ^ 1024 <=? m * 2 ^ p))%Z
    then (if (Qnum q <? 0)%Z then NegInf else PosInf)
    else Fin (scaled (Z.sgn (Qnum q) * m) p).

(** [a <= b] on floats; every comparison with NaN is false *)
Definition leb (a b : pyfloat) : bool :=
  match a, b with
  | NaN, _ | _, NaN => false
  | NegInf, _ => true
  | _, PosInf => true
  | Fin x, Fin y => Qle_bool x y
  | _, _ => false
  end.

Definition is_zero (a : pyfloat) : bool :=
  match a with
  | Fin x => Qeq_bool x 0
  | _ => false
  end.

(** [float(n)] for an [int]: raises when the rounded value is not finite *)
Definition of_int (z : Z) : result pyfloat :=
  match binary64 (inject_Z z) with
  | Fin q => Ok (Fin q)
  | _ => Raise OverflowError
  end.

(** The whitespace [float] strips from both ends of a text: the
    whitespace of [str.isspace] without the four ASCII separators
    [\x1c] to [\x1f], which the C character table does not count. *)
Definition is_space (c : pychar) : bool :=
  Str.is_space c && negb (in_range 28 31 c).

Definition digits_value (ds : pystr) : Z :=
  fold_left (fun acc c => (10 * acc + digit_val c)%Z) ds 0%Z.

(** An underscore is accepted only between two digits; the accepted
    ones are dropped. *)
Fixpoint drop_underscores (prev : option pychar) (s : pystr) : option pystr :=
  let after_underscore :=
    match prev with
    | Some p => N.eqb p 95
    | None => false
    end in
  match s with
  | [] => if after_underscore then None else Some []
  | c :: t =>
      if N.eqb c 95 then
        match prev with
        | Some p => if is_digit p then drop_underscores (Some c) t else None
        | None => None
        end
      else if after_underscore && negb (is_digit c) then None
      else option_map (cons c) (drop_underscores (Some c) t)
  end.

Definition parse_sign (s : pystr) : bool * pystr :=
  match s with
  | c :: t =>
      if N.eqb c 45 then (true, t)
      else if N.eqb c 43 then (false, t)
      else (false, s)
  | [] => (false, [])
  end.

(** The exponent part: empty, or [e]/[E], an optional sign and at
    least one digit, up to the end of the text. *)
Definition parse_exponent (s : pystr) : option Z :=
  match s with
  | [] => Some 0%Z
  | c :: t =>
      if N.eqb c 101 || N.eqb c 69 then
        let (neg, t') := parse_sign t in
        match span is_digit t' with
        | ((_ :: _) as ds, []) =>
            Some (if neg then (- digits_value ds)%Z else digits_value ds)
        | _ => None
        end
      else None
  end.

(** [digits [. digits] [exponent]] or [. digits [exponent]] as an exact
    rational *)
Definition parse_decimal (s : pystr) : option Q :=
  let (ip, r1) := span is_digit s in
  let (fp, r2) :=
    match r1 with
    | c :: t => if N.eqb c 46 then span is_digit t else ([], r1)
    | [] => ([], r1)
    end in
  match ip ++ fp with
  | [] => None
  | ds =>
      match parse_exponent r2 with
      | None => None
      | Some ex =>
          let e := (ex - Z.of_nat (List.length fp))%Z in
          let m := digits_value ds in
          Some (if (0 <=? e)%Z then inject_Z (m * 10 ^ e)
                else Qmake m (Z.to_pos (10 ^ (- e))))
      end
  end.

Definition parse_inf_nan (neg : bool) (s : pystr) : option pyfloat :=
  let l := lower s in
  if Str.eqb l (lit "inf") || Str.eqb l (lit "infinity")
  then Some (if neg then NegInf else PosInf)
  else if Str.eqb l (lit "nan") then Some NaN
  else None.

(** [float(s)] for a [str] *)
Definition of_str (s : pystr) : result pyfloat :=
  match drop_underscores None (strip_by is_space s) with
  | None => Raise ValueError
  | Some t =>
      let (neg, body) := parse_sign t in
      match parse_decimal body with
      | Some q => Ok (binary64 (if neg then Qopp q else q))
      | None =>
          match parse_inf_nan neg body with
          | Some f => Ok f
          | None => Raise ValueError
          end
      end
  end.

(** The float a decimal literal of Python source denotes *)
Definition literal (q : Q) : pyfloat := binary64 q.

End Float.

(** ** Python values

    What [json.loads] and extruct hand to the adapter: [None], booleans,
    integers, floats, strings, lists and dictionaries with string keys
    (in insertion order; a lookup finds the first binding of a key). *)

Inductive pyval : Type :=
| VNone
| VBool (b : bool)
| VInt (z : Z)
| VFloat (f : pyfloat)
| VStr (s : pystr)
| VList (l : list pyval)
| VDict (d : list (pystr * pyval)).

Module Py.

(** [bool(v)] *)
Definition truthy (v : pyval) : bool :=
  match v with
  | VNone => false
  | VBool b => b
  | VInt z => negb (z =? 0)%Z
  | VFloat f => negb (Float.is_zero f)
  | VStr s => match s with [] => false | _ => true end
  | VList l => match l with [] => false | _ => true end
  | VDict d => match d with [] => false | _ => true end
  end.

(** [v is not None] *)
Definition is_not_None (v : pyval) : bool :=
  match v with
  | VNone => false
  | _ => true
  end.

(** [k in d] and [d[k]] *)
Fixpoint lookup (k : pystr) (d : list (pystr * pyval)) : option pyval :=
  match d with
  | [] => None
  | (k', v) :: rest => if Str.eqb k' k then Some v else lookup k rest
  end.

(** [d.get(k, default)] *)
Definition dict_get (d : list (pystr * pyval)) (k : pystr) (default : pyval) : pyval :=
  match lookup k d with
  | Some v => v
  | None => default
  end.

(** [float(v)] *)
Definition float (v : pyval) : result pyfloat :=
  match v with
  | VFloat f => Ok f
  | VInt z => Float.of_int z
  | VBool b => Ok (Fin (if b then 1 else 0))
  | VStr s => Float.of_str s
  | VNone | VList _ | VDict _ => Raise TypeError
  end.

(** [' '.join(l)]: every element has to be a [str] *)
Fixpoint all_strings (l : list pyval) : result (list pystr) :=
  match l with
  | [] => Ok []
  | VStr s :: rest => ws <- all_strings rest ;; Ok (s :: ws)
  | _ :: _ => Raise TypeError
  end.

Definition join (l : list pyval) : result pystr :=
  ws <- all_strings l ;; Ok (join_space ws).

Section Repr.

(** [repr] is the text Python prints for a value that is not a string
    (CPython's float formatting, quoting of nested strings, ...). *)
Variable repr : pyval -> pystr.

(** [str(v)] *)
Definition str (v : pyval) : pystr :=
  match v with
  | VStr s => s
  | _ => repr v
  end.

End Repr.

(** The text of [None], [True] and [False]; the other values, which no
    evaluation below prints, are left blank. *)
Definition repr_atoms (v : pyval) : pystr :=
  match v with
  | VNone => lit "None"
  | VBool true => lit "True"
  | VBool false => lit "False"
  | _ => []
  end.

End Py.

(** ** base.py *)

Record ProductInfo : Type := {
  name : pystr;
  price : pyfloat
}.

(** [BaseAdapter]: the two abstract methods, and the class name the
    factory writes to its log. *)
Record BaseAdapter : Type := {
  class_name : string;
  supports_url : pystr -> result bool;
  get_product_info : pystr -> result (option ProductInfo)
}.

(** ** The collaborators *)

(** [urlparse(url)]: the fields the adapters read.  [hostname] is a
    property that computes its value and may raise. *)
Record ParseResult : Type := {
  scheme : pystr;
  netloc : pystr;
  hostname : result (option pystr)
}.

(** A [requests.Response] *)
Record Response : Type := {
  status_code : Z;
  text : pystr;
  content : pystr
}.

(** [response.raise_for_status()] *)
Definition raise_for_status (r : Response) : result unit :=
  if ((400 <=? status_code r) && (status_code r <? 600))%Z
  then Raise RequestException
  else Ok tt.

(** A bs4 element: the text nodes below it in document order, and its
    attributes (the adapter reads [content], whose value is a string). *)
Record Tag : Type := {
  strings : list pystr;
  attrs : list (pystr * pystr)
}.

(** A parsed page: what [soup.select(selector)] returns, in document
    order. *)
Record Soup : Type := {
  select : pystr -> result (list Tag)
}.

Record Env : Type := {
  urlparse : pystr -> result ParseResult;
  jsonld_session_get : pystr -> result Response;
  html_session_get : pystr -> result Response;
  extruct_extract : pystr -> pystr -> result (list (pystr * list pyval));
  BeautifulSoup : pystr -> result Soup;
  py_repr : pyval -> pystr
}.

(** ** jsonld_adapter.py *)

Module JsonLdAdapter.

(** The loop over [nested_keys] of [_get_nested_value] *)
Fixpoint walk (value : pyval) (nested_keys : list pystr) : pyval :=
  match nested_keys with
  | [] => value
  | nested_key :: rest =>
      match value with
      | VDict d =>
          match Py.lookup nested_key d with
          | Some v => walk v rest
          | None => VNone
          end
      | _ => VNone
      end
  end.

Fixpoint get_nested_keys (d : list (pystr * pyval)) (keys : list pystr) : pyval :=
  match keys with
  | [] => VNone
  | key :: rest =>
      if contains (lit "/") key then
        match walk (VDict d) (split 47 key) with
        | VNone => get_nested_keys d rest
        | value => value
        end
      else
        match Py.lookup key d with
        | Some value =>
            match value with
            | VList (first :: _) => first
            | _ => value
            end
        | None => get_nested_keys d rest
        end
  end.

Definition _get_nested_value (data : pyval) (keys : list pystr) : pyval :=
  match data with
  | VDict d => get_nested_keys d keys
  | _ => VNone
  end.

Definition offer_price_keys : list pystr :=
  [lit "price"; lit "lowPrice"; lit "highPrice"; lit "priceSpecification/price"].

(** [price.replace('$', '').replace(',', '').strip()] when [price] is a
    string *)
Definition clean_price (price : pyval) : pyval :=
  match price with
  | VStr s => VStr (strip (remove_char 44 (remove_char 36 s)))
  | _ => price
  end.

(** The loop [for offer in offers] of [_extract_price_from_offers] *)
Fixpoint scan_offers (offers : list pyval) : result (option pyfloat) :=
  match offers with
  | [] => Ok None
  | offer :: rest =>
      match offer with
      | VDict _ =>
          let price := _get_nested_value offer offer_price_keys in
          if Py.is_not_None price then
            match Py.float (clean_price price) with
            | Ok f => Ok (Some f)
            | Raise e =>
                if is_value_or_type_error e then scan_offers rest else Raise e
            end
          else scan_offers rest
      | _ => scan_offers rest
      end
  end.

Definition _extract_price_from_offers (offers : pyval) : result (option pyfloat) :=
  if negb (Py.truthy offers) then Ok None
  else
    let offers := match offers with
                  | VDict _ => VList [offers]
                  | _ => offers
                  end in
    match offers with
    | VList l => scan_offers l
    | _ => Ok None
    end.

Section WithRepr.

Variable repr : pyval -> pystr.

Fixpoint _extract_from_jsonld (jsonld_data : list pyval) : result (option ProductInfo) :=
  match jsonld_data with
  | [] => Ok None
  | item :: rest =>
      match item with
      | VDict d =>
          let item_type := Py.dict_get d (lit "@type") (VStr []) in
          item_type <- match item_type with
                       | VList l => s <- Py.join l ;; Ok (VStr s)
                       | _ => Ok item_type
                       end ;;
          if contains (lit "Product") (Py.str repr item_type) then
            let name := _get_nested_value item [lit "name"; lit "title"] in
            price <- _extract_price_from_offers (Py.dict_get d (lit "offers") (VDict [])) ;;
            match price with
            | Some p =>
                if Py.truthy name
                then Ok (Some {| name := Py.str repr name; price := p |})
                else _extract_from_jsonld rest
            | None => _extract_from_jsonld rest
            end
          else _extract_from_jsonld rest
      | _ => _extract_from_jsonld rest
      end
  end.

(** The loop [for offer in offers] of [_extract_from_microdata] *)
Fixpoint scan_microdata_offers (name : pyval) (offers : list pyval)
  : result (option ProductInfo) :=
  match offers with
  | [] => Ok None
  | offer :: rest =>
      match offer with
      | VDict od =>
          let offer_props := Py.dict_get od (lit "properties") (VDict []) in
          let price := _get_nested_value offer_props [lit "price"; lit "lowPrice"] in
          if Py.is_not_None price && Py.truthy name then
            match Py.float price with
            | Ok f => Ok (Some {| name := Py.str repr name; price := f |})
            | Raise e =>
                if is_value_or_type_error e
                then scan_microdata_offers name rest
                else Raise e
            end
          else scan_microdata_offers name rest
      | _ => scan_microdata_offers name rest
      end
  end.

Fixpoint _extract_from_microdata (microdata : list pyval) : result (option ProductInfo) :=
  match microdata with
  | [] => Ok None
  | item :: rest =>
      match item with
      | VDict d =>
          let item_type := Py.dict_get d (lit "type") (VStr []) in
          if contains (lit "Product") (Py.str repr item_type) then
            let properties := Py.dict_get d (lit "properties") (VDict []) in
            let name := _get_nested_value properties [lit "name"] in
            offers <- match properties with
                      | VDict pd => Ok (Py.dict_get pd (lit "offers") (VList []))
                      | _ => Raise AttributeError
                      end ;;
            found <- match offers with
                     | VList ((_ :: _) as l) => scan_microdata_offers name l
                     | _ => Ok None
                     end ;;
            match found with
            | Some info => Ok (Some info)
            | None => _extract_from_microdata rest
            end
          else _extract_from_microdata rest
      | _ => _extract_from_microdata rest
      end
  end.

(** The RDFa branch looks for product-related keys and does nothing
    with them. *)
Fixpoint _extract_from_rdfa (rdfa_data : list pyval) : result (option ProductInfo) :=
  match rdfa_data with
  | [] => Ok None
  | item :: rest =>
      match item with
      | VDict d =>
          if existsb (fun kv =>
                        contains (lit "product") (lower (fst kv))
                        && Py.truthy (VStr (fst kv))) d
          then _extract_from_rdfa rest
          else _extract_from_rdfa rest
      | _ => _extract_from_rdfa rest
      end
  end.

End WithRepr.

Definition known_sites : list pystr :=
  [lit "amazon."; lit "ebay."; lit "walmart."; lit "target."; lit "bestbuy."].

(** [bool(parsed.netloc and parsed.scheme in ['http', 'https'])] *)
Definition http_scheme (p : ParseResult) : bool :=
  match netloc p with
  | [] => false
  | _ => Str.eqb (scheme p) (lit "http") || Str.eqb (scheme p) (lit "https")
  end.

Section WithEnv.

Variable env : Env.

Definition supports_url (url : pystr) : result bool :=
  match urlparse env url with
  | Ok parsed =>
      match hostname parsed with
      | Ok h =>
          let hostname := match h with
                          | Some h => h
                          | None => []
                          end in
          Ok (http_scheme parsed
              && existsb (fun site => contains site (lower hostname)) known_sites)
      | Raise _ => Ok false
      end
  | Raise _ => Ok false
  end.

(** [data.get(syntax, [])] *)
Definition syntax_items (data : list (pystr * list pyval)) (syntax : pystr) : list pyval :=
  match find (fun kv => Str.eqb (fst kv) syntax) data with
  | Some (_, items) => items
  | None => []
  end.

(** The body of the [try] block of [get_product_info] *)
Definition scrape (url : pystr) : result (option ProductInfo) :=
  response <- jsonld_session_get env url ;;
  _ <- raise_for_status response ;;
  data <- extruct_extract env (text response) url ;;
  product_info <- _extract_from_jsonld (py_repr env) (syntax_items data (lit "json-ld")) ;;
  match product_info with
  | Some info => Ok (Some info)
  | None =>
      product_info <- _extract_from_microdata (py_repr env) (syntax_items data (lit "microdata")) ;;
      match product_info with
      | Some info => Ok (Some info)
      | None =>
          product_info <- _extract_from_rdfa (syntax_items data (lit "rdfa")) ;;
          match product_info with
          | Some info => Ok (Some info)
          | None => Ok None
          end
      end
  end.

Definition get_product_info (url : pystr) : result (option ProductInfo) :=
  match scrape url with
  | Ok r => Ok r
  | Raise _ => Ok None
  end.

End WithEnv.

Definition adapter (env : Env) : BaseAdapter :=
  Build_BaseAdapter "JsonLdAdapter" (supports_url env) (get_product_info env).

End JsonLdAdapter.


(** ** The regular expressions of html_adapter.py

    The patterns are sequences of single-character classes with a
    quantifier, with one capturing group.  [match_items] is the
    backtracking matcher of [re]: every quantifier is greedy and gives
    characters back when the rest of the pattern fails. *)

Module Re.

Inductive quant : Type := One | Opt | Star | Plus.

Record item : Type := {
  cls : pychar -> bool;
  q : quant
}.

Record pattern : Type := {
  prefix : list item;
  group : list item;
  suffix : list item
}.

Section Matcher.

Variable A : Type.

Fixpoint star (c : pychar -> bool) (k : pystr -> option A) (s : pystr) : option A :=
  match s with
  | x :: t =>
      if c x then
        match star c k t with
        | Some r => Some r
        | None => k s
        end
      else k s
  | [] => k []
  end.

Fixpoint match_items (items : list item) (k : pystr -> option A) (s : pystr) : option A :=
  match items with
  | [] => k s
  | it :: rest =>
      let k' := match_items rest k in
      match q it with
      | One =>
          match s with
          | x :: t => if cls it x then k' t else None
          | [] => None
          end
      | Opt =>
          match s with
          | x :: t =>
              if cls it x then
                match k' t with
                | Some r => Some r
                | None => k' s
                end
              else k' s
          | [] => k' []
          end
      | Star => star (cls it) k' s
      | Plus =>
          match s with
          | x :: t => if cls it x then star (cls it) k' t else None
          | [] => None
          end
      end
  end.

End Matcher.

(** A match of [p] that starts at the head of [s]: the text of the
    group, and what follows the match. *)
Definition match_at (p : pattern) (s : pystr) : option (pystr * pystr) :=
  match_items (prefix p)
    (fun s1 =>
       match_items (group p)
         (fun s2 =>
            match_items (suffix p)
              (fun s3 => Some (firstn (List.length s1 - List.length s2) s1, s3))
              s2)
         s1)
    s.

(** [skip] characters of the last match are still to be passed. *)
Fixpoint findall_from (p : pattern) (skip : nat) (s : pystr) : list pystr :=
  match s with
  | [] =>
      match skip, match_at p [] with
      | O, Some (g, _) => [g]
      | _, _ => []
      end
  | _ :: t =>
      match skip with
      | S n => findall_from p n t
      | O =>
          match match_at p s with
          | Some (g, rest) =>
              g :: findall_from p (List.length s - List.length rest - 1) t
          | None => findall_from p 0 t
          end
      end
  end.

(** [re.findall(p, s)] for a pattern with one group: the group of every
    match, leftmost first, the matches not overlapping. *)
Definition findall (p : pattern) (s : pystr) : list pystr := findall_from p 0 s.

Definition one (c : pychar -> bool) : item := {| cls := c; q := One |}.
Definition opt (c : pychar -> bool) : item := {| cls := c; q := Opt |}.
Definition star_of (c : pychar -> bool) : item := {| cls := c; q := Star |}.
Definition plus (c : pychar -> bool) : item := {| cls := c; q := Plus |}.

End Re.

(** ** html_adapter.py *)

Module HtmlAdapter.

(** [element.get_text(strip=True)]: every text node stripped, the empty
    ones dropped, the rest concatenated *)
Definition get_text_strip (element : Tag) : pystr :=
  List.concat (filter (fun s => match s with [] => false | _ => true end)
                 (map strip (strings element))).

(** [element.get(key, default)] *)
Fixpoint attr_get (l : list (pystr * pystr)) (key default : pystr) : pystr :=
  match l with
  | [] => default
  | (k, v) :: rest => if Str.eqb k key then v else attr_get rest key default
  end.

Definition get (element : Tag) (key default : pystr) : pystr :=
  attr_get (attrs element) key default.

(** [soup.select_one(selector)] *)
Definition select_one (soup : Soup) (selector : pystr) : result (option Tag) :=
  l <- select soup selector ;; Ok (hd_error l).

(** The selector text [tag[attr op "value"]] of the source. *)
Definition attr_selector (tag attr op value : string) : pystr :=
  lit tag ++ lit "[" ++ lit attr ++ lit op ++ [34%N] ++ lit value ++ [34%N] ++ lit "]".

Definition name_selectors : list pystr :=
  [ lit "h1";
    attr_selector "" "data-testid" "*=" "product-title";
    attr_selector "" "class" "*=" "product-title";
    attr_selector "" "class" "*=" "product-name";
    attr_selector "" "id" "*=" "product-title";
    lit "title";
    attr_selector "meta" "property" "=" "og:title";
    attr_selector "meta" "name" "=" "title" ].

(** [text and len(text) > 3] *)
Definition valid_name (text : pystr) : bool :=
  match text with
  | [] => false
  | _ => Nat.ltb 3 (List.length text)
  end.

(** The body of the [try] block of [_extract_name] for one selector:
    [Ok (Some text)] when it returns. *)
Definition name_candidate (soup : Soup) (selector : pystr) : result (option pystr) :=
  if startswith selector (lit "meta") then
    element <- select_one soup selector ;;
    match element with
    | Some element =>
        let content := strip (get element (lit "content") []) in
        if valid_name content then Ok (Some content) else Ok None
    | None => Ok None
    end
  else
    element <- select_one soup selector ;;
    match element with
    | Some element =>
        let text := get_text_strip element in
        if valid_name text then Ok (Some text) else Ok None
    | None => Ok None
    end.

Fixpoint first_name (soup : Soup) (selectors : list pystr) : option pystr :=
  match selectors with
  | [] => None
  | selector :: rest =>
      match name_candidate soup selector with
      | Ok (Some text) => Some text
      | Ok None => first_name soup rest
      | Raise _ => first_name soup rest
      end
  end.

Definition _extract_name (soup : Soup) (url : pystr) : option pystr :=
  first_name soup name_selectors.

Definition currency (c : pychar) : bool :=
  N.eqb c 36 || N.eqb c 163 || N.eqb c 8364 || N.eqb c 165 || N.eqb c 8377.

Definition comma_or_dot (c : pychar) : bool := N.eqb c 44 || N.eqb c 46.

Definition dot (c : pychar) : bool := N.eqb c 46.

(** The capturing group of the three patterns: [\d+ [,.]? \d* \.? \d*] *)
Definition number : list Re.item :=
  [Re.plus is_digit; Re.opt comma_or_dot; Re.star_of is_digit; Re.opt dot;
   Re.star_of is_digit].

(** A currency symbol, [\s*], the group *)
Definition currency_before : Re.pattern :=
  {| Re.prefix := [Re.one currency; Re.star_of is_space];
     Re.group := number;
     Re.suffix := [] |}.

(** The group, [\s*], a currency symbol *)
Definition currency_after : Re.pattern :=
  {| Re.prefix := [];
     Re.group := number;
     Re.suffix := [Re.star_of is_space; Re.one currency] |}.

(** The group alone *)
Definition bare_number : Re.pattern :=
  {| Re.prefix := []; Re.group := number; Re.suffix := [] |}.

Definition price_patterns : list Re.pattern :=
  [currency_before; currency_after; bare_number].

Definition price_selectors : list pystr :=
  [ attr_selector "" "class" "*=" "price";
    attr_selector "" "data-testid" "*=" "price";
    attr_selector "" "id" "*=" "price";
    attr_selector "meta" "property" "=" "product:price:amount";
    attr_selector "meta" "property" "=" "og:price:amount";
    lit ".a-price-whole";
    lit ".notranslate" ].

(** [0.01 <= price <= 999999] *)
Definition reasonable (price : pyfloat) : bool :=
  Float.leb (Float.literal (1 # 100)) price && Float.leb price (Fin 999999).

(** The loop [for match in matches] of [_parse_price_text] *)
Fixpoint first_price_of_matches (matches : list pystr) : result (option pyfloat) :=
  match matches with
  | [] => Ok None
  | m :: rest =>
      let clean_price := remove_char 44 m in
      match Float.of_str clean_price with
      | Ok price =>
          if reasonable price then Ok (Some price)
          else first_price_of_matches rest
      | Raise e =>
          if is_value_or_type_error e then first_price_of_matches rest
          else Raise e
      end
  end.

Fixpoint first_price_of_patterns (text : pystr) (patterns : list Re.pattern)
  : result (option pyfloat) :=
  match patterns with
  | [] => Ok None
  | pattern :: rest =>
      found <- first_price_of_matches (Re.findall pattern text) ;;
      match found with
      | Some price => Ok (Some price)
      | None => first_price_of_patterns text rest
      end
  end.

Definition _parse_price_text (text : pystr) (patterns : list Re.pattern)
  : result (option pyfloat) :=
  match text with
  | [] => Ok None
  | _ => first_price_of_patterns text patterns
  end.

(** The loop [for element in elements] of [_extract_price] *)
Fixpoint first_price_of_elements (elements : list Tag) (patterns : list Re.pattern)
  : result (option pyfloat) :=
  match elements with
  | [] => Ok None
  | element :: rest =>
      let text := get_text_strip element in
      price <- _parse_price_text text patterns ;;
      match price with
      | Some p => Ok (Some p)
      | None => first_price_of_elements rest patterns
      end
  end.

(** The body of the [try] block of [_extract_price] for one selector *)
Definition price_candidate (soup : Soup) (selector : pystr) : result (option pyfloat) :=
  if startswith selector (lit "meta") then
    element <- select_one soup selector ;;
    match element with
    | Some element =>
        let content := get element (lit "content") [] in
        _parse_price_text content price_patterns
    | None => Ok None
    end
  else
    elements <- select soup selector ;;
    first_price_of_elements elements price_patterns.

Fixpoint first_price (soup : Soup) (selectors : list pystr) : option pyfloat :=
  match selectors with
  | [] => None
  | selector :: rest =>
      match price_candidate soup selector with
      | Ok (Some price) => Some price
      | Ok None => first_price soup rest
      | Raise _ => first_price soup rest
      end
  end.

Definition _extract_price (soup : Soup) (url : pystr) : option pyfloat :=
  first_price soup price_selectors.

Section WithEnv.

Variable env : Env.

Definition supports_url (url : pystr) : result bool :=
  match urlparse env url with
  | Ok parsed => Ok (JsonLdAdapter.http_scheme parsed)
  | Raise _ => Ok false
  end.

(** The body of the [try] block of [get_product_info] *)
Definition scrape (url : pystr) : result (option ProductInfo) :=
  response <- html_session_get env url ;;
  _ <- raise_for_status response ;;
  soup <- BeautifulSoup env (content response) ;;
  match _extract_name soup url with
  | None => Ok None
  | Some name =>
      match _extract_price soup url with
      | None => Ok None
      | Some price => Ok (Some {| name := name; price := price |})
      end
  end.

Definition get_product_info (url : pystr) : result (option ProductInfo) :=
  match scrape url with
  | Ok r => Ok r
  | Raise _ => Ok None
  end.

End WithEnv.

Definition adapter (env : Env) : BaseAdapter :=
  Build_BaseAdapter "HtmlAdapter" (supports_url env) (get_product_info env).

End HtmlAdapter.


(** ** factory.py *)

Module AdapterFactory.

(** What a call of [get_product_info] does, in order: the calls it makes
    to the adapters and the lines it writes to the log. *)
Inductive event : Type :=
| Called_supports_url (adapter : BaseAdapter)
| Called_get_product_info (adapter : BaseAdapter)
| Log_info (cls : string)             (* Successfully scraped ... using cls *)
| Log_warning (cls : string) (e : exn)  (* Adapter cls failed for ...: e *)
| Log_error.                          (* No adapter could scrape ... *)

Record t : Type := {
  adapters : list BaseAdapter
}.

Definition __init__ (env : Env) : t :=
  {| adapters := [JsonLdAdapter.adapter env; HtmlAdapter.adapter env] |}.

(** The loop [for adapter in self.adapters]: the events and the outcome.
    [supports_url] is called outside the [try] block, so what it raises
    leaves the factory. *)
Fixpoint run (l : list BaseAdapter) (url : pystr)
  : list event * result (option ProductInfo) :=
  match l with
  | [] => ([Log_error], Ok None)
  | adapter :: rest =>
      match supports_url adapter url with
      | Raise e => ([Called_supports_url adapter], Raise e)
      | Ok false =>
          let (evs, r) := run rest url in
          (Called_supports_url adapter :: evs, r)
      | Ok true =>
          match get_product_info adapter url with
          | Ok (Some product_info) =>
              ([Called_supports_url adapter; Called_get_product_info adapter;
                Log_info (class_name adapter)],
               Ok (Some product_info))
          | Ok None =>
              let (evs, r) := run rest url in
              (Called_supports_url adapter :: Called_get_product_info adapter :: evs, r)
          | Raise e =>
              let (evs, r) := run rest url in
              (Called_supports_url adapter :: Called_get_product_info adapter
                 :: Log_warning (class_name adapter) e :: evs, r)
          end
      end
  end.

Definition get_product_info (self : t) (url : pystr) : result (option ProductInfo) :=
  snd (run (adapters self) url).

Definition trace (self : t) (url : pystr) : list event :=
  fst (run (adapters self) url).

Definition add_adapter (self : t) (adapter : BaseAdapter) (priority : Z) : t :=
  if (priority =? 0)%Z
  then {| adapters := adapter :: adapters self |}
  else {| adapters := adapters self ++ [adapter] |}.

End AdapterFactory.

(** ** Float arithmetic

    [-], [*] and [/] of Python floats: the exact result rounded to
    binary64, with the IEEE rules for infinities and NaN; a division by
    zero raises [ZeroDivisionError]. *)

Module FloatArith.

Definition ZeroDivisionError : exn := OtherException "ZeroDivisionError".

(** -1, 0 or 1 for a number, [None] for NaN *)
Definition sign (a : pyfloat) : option Z :=
  match a with
  | Fin x => Some (Z.sgn (Qnum x))
  | PosInf => Some 1%Z
  | NegInf => Some (-1)%Z
  | NaN => None
  end.

Definition infinity (s : Z) : pyfloat := if (s <? 0)%Z then NegInf else PosInf.

Definition sub (a b : pyfloat) : pyfloat :=
  match a, b with
  | NaN, _ | _, NaN => NaN
  | Fin x, Fin y => Float.binary64 (x - y)%Q
  | PosInf, PosInf | NegInf, NegInf => NaN
  | PosInf, _ => PosInf
  | NegInf, _ => NegInf
  | Fin _, PosInf => NegInf
  | Fin _, NegInf => PosInf
  end.

Definition mul (a b : pyfloat) : pyfloat :=
  match a, b with
  | NaN, _ | _, NaN => NaN
  | Fin x, Fin y => Float.binary64 (x * y)%Q
  | _, _ =>
      match sign a, sign b with
      | Some sa, Some sb => if (sa * sb =? 0)%Z then NaN else infinity (sa * sb)
      | _, _ => NaN
      end
  end.

Definition div (a b : pyfloat) : result pyfloat :=
  if Float.is_zero b then Raise ZeroDivisionError
  else
    Ok match a, b with
       | NaN, _ | _, NaN => NaN
       | Fin x, Fin y => Float.binary64 (x / y)%Q
       | Fin _, _ => Fin 0
       | _, Fin y =>
           match sign a with
           | Some sa => infinity (sa * Z.sgn (Qnum y))
           | None => NaN
           end
       | _, _ => NaN
       end.

End FloatArith.

(** ** tasks/email_tasks.py *)

Module EmailTasks.

Definition calculate_price_drop_percentage (current_price average_price : pyfloat)
  : result pyfloat :=
  if Float.leb average_price (Fin 0) then Ok (Fin 0)
  else
    ratio <- FloatArith.div (FloatArith.sub average_price current_price) average_price ;;
    Ok (FloatArith.mul ratio (Fin 100)).

End EmailTasks.

(** ** Vocabulary of the statements *)

Module Spec.

(** The adapter yields no record for [url]: it declines the url, or it
    accepts it and returns [None], or it accepts it and raises. *)
Definition gives_up (url : pystr) (a : BaseAdapter) : Prop :=
  supports_url a url = Ok false
  \/ (supports_url a url = Ok true
      /\ (get_product_info a url = Ok None
          \/ exists e, get_product_info a url = Raise e)).

(** The adapter accepts [url] and returns the record [info]. *)
Definition finds (url : pystr) (a : BaseAdapter) (info : ProductInfo) : Prop :=
  supports_url a url = Ok true /\ get_product_info a url = Ok (Some info).

(** The first character, when there is one, is not whitespace. *)
Definition head_ok (space : pychar -> bool) (s : pystr) : Prop :=
  match s with
  | [] => True
  | c :: _ => space c = false
  end.

(** No whitespace at either end: [s.strip() == s]. *)
Definition trimmed (s : pystr) : Prop := strip s = s.

(** The name invariant: trimmed, at least 4 characters. *)
Definition name_ok (s : pystr) : Prop := trimmed s /\ 4 <= List.length s.

(** The price invariant: a finite number in [0.01, 999999]. *)
Definition price_in_range (p : pyfloat) : Prop :=
  exists q, p = Fin q /\ (1 # 100 <= q)%Q /\ (q <= 999999)%Q.

(** A text with no currency symbol. *)
Definition currency_free (s : pystr) : Prop :=
  Forall (fun c => HtmlAdapter.currency c = false) s.

(** A text of ASCII digits. *)
Definition digits (s : pystr) : Prop := Forall (fun c => is_digit c = true) s.

(** The selector yields no name on this page: nothing matches, or the
    text is too short, or evaluating the selector raises. *)
Definition no_name (soup : Soup) (selector : pystr) : Prop :=
  HtmlAdapter.name_candidate soup selector = Ok None
  \/ exists e, HtmlAdapter.name_candidate soup selector = Raise e.



(** A float that is zero, positive or plus infinity. *)
Definition float_nonneg (p : pyfloat) : Prop :=
  match p with
  | Fin r => (0 <= r)%Q
  | PosInf => True
  | _ => False
  end.

(** A float that is zero, negative or minus infinity. *)
Definition float_nonpos (p : pyfloat) : Prop :=
  match p with
  | Fin r => (r <= 0)%Q
  | NegInf => True
  | _ => False
  end.

(** The response carries an HTTP error status (4xx or 5xx). *)
Definition http_error (r : Response) : Prop :=
  (400 <= status_code r)%Z /\ (status_code r < 600)%Z.

(** The selector yields no price on this page: nothing matches, no text
    holds a reasonable number, or evaluating the selector raises. *)
Definition no_price (soup : Soup) (selector : pystr) : Prop :=
  HtmlAdapter.price_candidate soup selector = Ok None
  \/ exists e, HtmlAdapter.price_candidate soup selector = Raise e.

End Spec.

(** ** Concrete adapters and pages *)

Module Examples.

Definition url : pystr := lit "https://www.amazon.com/dp/B000".

Definition widget : ProductInfo := {| name := lit "Widget Pro"; price := Fin 25 |}.

Definition raising_adapter : BaseAdapter :=
  Build_BaseAdapter "RaisingAdapter" (fun _ => Ok true)
    (fun _ => Raise (OtherException "parser crashed")).

Definition empty_adapter : BaseAdapter :=
  Build_BaseAdapter "EmptyAdapter" (fun _ => Ok true) (fun _ => Ok None).

Definition declining_adapter : BaseAdapter :=
  Build_BaseAdapter "DecliningAdapter" (fun _ => Ok false) (fun _ => Ok (Some widget)).

Definition finding_adapter : BaseAdapter :=
  Build_BaseAdapter "FindingAdapter" (fun _ => Ok true) (fun _ => Ok (Some widget)).

Definition faulty_supports_adapter : BaseAdapter :=
  Build_BaseAdapter "FaultySupportsAdapter" (fun _ => Raise ValueError)
    (fun _ => Ok (Some widget)).

Definition parsed_url : ParseResult :=
  {| scheme := lit "https";
     netloc := lit "www.amazon.com";
     hostname := Ok (Some (lit "www.amazon.com")) |}.

Definition ok_response : Response :=
  {| status_code := 200; text := lit "<html>...</html>"; content := lit "<html>...</html>" |}.

(** A page given by what each selector matches. *)
Definition soup_of (l : list (pystr * list Tag)) : Soup :=
  {| select := fun selector =>
       Ok (match find (fun kv => Str.eqb (fst kv) selector) l with
           | Some (_, tags) => tags
           | None => []
           end) |}.

(** The url parses, both requests answer 200, extruct returns [data]
    and BeautifulSoup returns [soup]. *)
Definition page_env (data : list (pystr * list pyval)) (soup : Soup) : Env :=
  {| urlparse := fun _ => Ok parsed_url;
     jsonld_session_get := fun _ => Ok ok_response;
     html_session_get := fun _ => Ok ok_response;
     extruct_extract := fun _ _ => Ok data;
     BeautifulSoup := fun _ => Ok soup;
     py_repr := Py.repr_atoms |}.

Definition text_tag (s : string) : Tag := {| strings := [lit s]; attrs := [] |}.


Definition empty_soup : Soup := soup_of [].

(** A page with a heading and a price element, no structured data. *)
Definition shop_soup : Soup :=
  soup_of [ (lit "h1", [text_tag " Widget Pro "]);
            (HtmlAdapter.attr_selector "" "class" "*=" "price", [text_tag "$49.99"]) ].


(** A JSON-LD product with the given name and offers. *)
Definition product (name : pyval) (offers : pyval) : pyval :=
  VDict [ (lit "@type", VStr (lit "Product"));
          (lit "name", name);
          (lit "offers", offers) ].

Definition jsonld (items : list pyval) : list (pystr * list pyval) :=
  [ (lit "json-ld", items); (lit "microdata", []); (lit "rdfa", []) ].

Definition price_offer (price : pyval) : pyval := VDict [ (lit "price", price) ].

(** A product offered at 0.00, one at 1000000, and one named [ab]. *)
Definition free_page : Env :=
  page_env (jsonld [product (VStr (lit "Widget Pro")) (price_offer (VStr (lit "0.00")))])
           empty_soup.

Definition million_page : Env :=
  page_env (jsonld [product (VStr (lit "Widget Pro")) (price_offer (VInt 1000000))])
           empty_soup.

Definition short_name_page : Env :=
  page_env (jsonld [product (VStr (lit "ab")) (price_offer (VStr (lit "25.00")))])
           empty_soup.

(** A microdata product as extruct gives it, with the given value of
    its [offers] property. *)
Definition microdata_offer : pyval :=
  VDict [ (lit "type", VStr (lit "http://schema.org/Offer"));
          (lit "properties", VDict [ (lit "price", VStr (lit "25.00")) ]) ].

Definition microdata_product (offers : pyval) : pyval :=
  VDict [ (lit "type", VStr (lit "http://schema.org/Product"));
          (lit "properties",
           VDict [ (lit "name", VStr (lit "Widget Pro")); (lit "offers", offers) ]) ].

(** Both requests are answered with status 404. *)
Definition not_found_response : Response :=
  {| status_code := 404; text := lit "Not Found"; content := lit "Not Found" |}.

Definition not_found_env : Env :=
  {| urlparse := fun _ => Ok parsed_url;
     jsonld_session_get := fun _ => Ok not_found_response;
     html_session_get := fun _ => Ok not_found_response;
     extruct_extract := fun _ _ => Ok (jsonld [product (VStr (lit "Widget Pro"))
                                                  (price_offer (VStr (lit "25.00")))]);
     BeautifulSoup := fun _ => Ok shop_soup;
     py_repr := Py.repr_atoms |}.

(** The url of a shop that is not among the known sites. *)
Definition small_shop_url : ParseResult :=
  {| scheme := lit "https";
     netloc := lit "shop.example.org";
     hostname := Ok (Some (lit "shop.example.org")) |}.

Definition small_shop_env : Env :=
  {| urlparse := fun _ => Ok small_shop_url;
     jsonld_session_get := fun _ => Ok ok_response;
     html_session_get := fun _ => Ok ok_response;
     extruct_extract := fun _ _ => Ok (jsonld [product (VStr (lit "ab"))
                                                  (price_offer (VStr (lit "0.00")))]);
     BeautifulSoup := fun _ => Ok shop_soup;
     py_repr := Py.repr_atoms |}.

(** A JSON-LD item whose type list holds a number, beside a microdata
    product that is in order. *)
Definition broken_type_data : list (pystr * list pyval) :=
  [ (lit "json-ld",
     [VDict [ (lit "@type", VList [VStr (lit "Product"); VInt 3]);
              (lit "name", VStr (lit "Widget Pro")) ]]);
    (lit "microdata", [microdata_product (VList [microdata_offer])]);
    (lit "rdfa", []) ].

(** Two microdata offers, the first with a dollar sign in its price. *)
Definition microdata_priced_offer (price : string) : pyval :=
  VDict [ (lit "type", VStr (lit "http://schema.org/Offer"));
          (lit "properties", VDict [ (lit "price", VStr (lit price)) ]) ].

(** A page whose first price container holds no number. *)
Definition two_prices_soup : Soup :=
  soup_of [ (HtmlAdapter.attr_selector "" "class" "*=" "price", [text_tag "Price on request"]);
            (HtmlAdapter.attr_selector "" "id" "*=" "price", [text_tag "5 $"]) ].

End Examples.

(** * Properties *)

(** ** The factory *)

Section Factory.

Local Abbreviation run := AdapterFactory.run.
Local Abbreviation trace := AdapterFactory.trace.
Local Abbreviation adapters := AdapterFactory.adapters.
Local Abbreviation add_adapter := AdapterFactory.add_adapter.
Local Abbreviation registry := AdapterFactory.Build_t.
Local Abbreviation Called_supports_url := AdapterFactory.Called_supports_url.
Local Abbreviation Called_get_product_info := AdapterFactory.Called_get_product_info.
Local Abbreviation Log_info := AdapterFactory.Log_info.

(** Settles [Spec.gives_up] for a concrete adapter by evaluation. *)
Ltac gives_up_by_evaluation :=
  first [ left; reflexivity
        | right; split;
          [ reflexivity
          | first [ left; reflexivity | right; eexists; reflexivity ] ] ].

Lemma run_gives_up (url : pystr) (a : BaseAdapter) (rest : list BaseAdapter) :
  Spec.gives_up url a ->
  snd (run (a :: rest) url) = snd (run rest url)
  /\ exists evs, fst (run (a :: rest) url) = Called_supports_url a :: evs
                 /\ incl (fst (run rest url)) evs.
Proof.
  intros [Hs | [Hs [Hg | [e Hg]]]]; simpl; rewrite Hs; try rewrite Hg;
    destruct (run rest url) as [evs r]; simpl; split; try reflexivity;
    eexists; (split; [reflexivity |]); intros x Hx; simpl; auto.
Qed.

Lemma run_skips_prefix (url : pystr) (earlier rest : list BaseAdapter) :
  Forall (Spec.gives_up url) earlier ->
  snd (run (earlier ++ rest) url) = snd (run rest url)
  /\ incl (fst (run rest url)) (fst (run (earlier ++ rest) url)).
Proof.
  induction 1 as [| a earlier Ha _ IH]; simpl app.
  - split; [reflexivity | apply incl_refl].
  - destruct IH as [IHr IHe].
    destruct (run_gives_up (earlier ++ rest) Ha) as [Hr [evs [He Hi]]].
    split.
    + rewrite Hr. exact IHr.
    + rewrite He. apply incl_tl. eapply incl_tran; eassumption.
Qed.

Lemma run_head_event (url : pystr) (a : BaseAdapter) (rest : list BaseAdapter) :
  hd_error (fst (run (a :: rest) url)) = Some (Called_supports_url a).
Proof.
  simpl. destruct (supports_url a url) as [[|] |]; try reflexivity.
  - destruct (get_product_info a url) as [[info |] | e]; try reflexivity;
      destruct (run rest url); reflexivity.
  - destruct (run rest url); reflexivity.
Qed.

Lemma run_finds (url : pystr) (a : BaseAdapter) (rest : list BaseAdapter)
      (info : ProductInfo) :
  Spec.finds url a info ->
  run (a :: rest) url =
    ([Called_supports_url a; Called_get_product_info a; Log_info (class_name a)],
     Ok (Some info)).
Proof.
  intros [Hs Hg]. simpl. rewrite Hs, Hg. reflexivity.
Qed.

(** C1.  Whatever the registered list, when every adapter before [a]
    gives up on the url (declines it, returns [None], or raises inside
    [get_product_info]), the factory still calls [a]: [supports_url a]
    is among the calls it makes; and when [a] accepts the url and
    returns a record, the factory calls [get_product_info a] and
    returns that record.  An exception raised by an earlier adapter's
    [get_product_info] does not end the loop. *)
Theorem factory_fallback_isolation
        (earlier later : list BaseAdapter) (a : BaseAdapter) (url : pystr)
        (info : ProductInfo) :
  Forall (Spec.gives_up url) earlier ->
  Spec.finds url a info ->
  let self := registry (earlier ++ a :: later) in
  In (Called_supports_url a) (trace self url)
  /\ In (Called_get_product_info a) (trace self url)
  /\ AdapterFactory.get_product_info self url = Ok (Some info).
Proof.
  intros Hearlier Hfinds self.
  unfold trace, AdapterFactory.get_product_info, self; simpl adapters.
  destruct (run_skips_prefix (a :: later) Hearlier) as [Hr Hi].
  rewrite Hr. rewrite (run_finds later Hfinds) in *. simpl in *.
  repeat split; try apply Hi; simpl; auto.
Qed.

Lemma factory_fallback_isolation_example :
  let self := registry ([Examples.raising_adapter; Examples.empty_adapter;
                              Examples.declining_adapter; Examples.finding_adapter;
                              Examples.raising_adapter]) in
  In (Called_supports_url Examples.finding_adapter) (trace self Examples.url)
  /\ In (Called_get_product_info Examples.finding_adapter) (trace self Examples.url)
  /\ AdapterFactory.get_product_info self Examples.url = Ok (Some Examples.widget).
Proof.
  apply (@factory_fallback_isolation
           [Examples.raising_adapter; Examples.empty_adapter; Examples.declining_adapter]
           [Examples.raising_adapter] Examples.finding_adapter Examples.url
           Examples.widget).
  - repeat (apply Forall_cons; [gives_up_by_evaluation |]). apply Forall_nil.
  - split; reflexivity.
Defined.

(** C6.  When every registered adapter gives up on the url (it declines
    the url, or finds nothing, or raises while extracting), which
    includes the case where no adapter supports the url and the empty
    registry, the factory returns [None]: the outcome is [Ok None],
    never [Raise]. *)
Theorem factory_not_found_never_raises (self : AdapterFactory.t) (url : pystr) :
  Forall (Spec.gives_up url) (adapters self) ->
  AdapterFactory.get_product_info self url = Ok None.
Proof.
  intros H. unfold AdapterFactory.get_product_info.
  destruct (run_skips_prefix [] H) as [Hr _].
  rewrite app_nil_r in Hr. rewrite Hr. reflexivity.
Qed.

Lemma factory_not_found_never_raises_example :
  AdapterFactory.get_product_info
    (registry [Examples.raising_adapter; Examples.declining_adapter;
               Examples.empty_adapter]) Examples.url = Ok None.
Proof.
  apply factory_not_found_never_raises. simpl.
  repeat (apply Forall_cons; [gives_up_by_evaluation |]). apply Forall_nil.
Defined.

(** C9.  [add_adapter] with priority 0 puts the adapter in front of the
    registered ones, whatever they are.  On the next call the first
    thing the factory does is call its [supports_url]; when it accepts
    the url its [get_product_info] decides first, and the adapters
    registered before are consulted only when it declines or finds
    nothing. *)
Theorem add_adapter_front_tried_first
        (self : AdapterFactory.t) (adapter : BaseAdapter) (url : pystr) :
  adapters (add_adapter self adapter 0) = adapter :: adapters self
  /\ hd_error (trace (add_adapter self adapter 0) url) = Some (Called_supports_url adapter)
  /\ AdapterFactory.get_product_info (add_adapter self adapter 0) url =
       match supports_url adapter url with
       | Raise e => Raise e
       | Ok false => AdapterFactory.get_product_info self url
       | Ok true =>
           match get_product_info adapter url with
           | Ok (Some info) => Ok (Some info)
           | _ => AdapterFactory.get_product_info self url
           end
       end.
Proof.
  unfold add_adapter, trace, AdapterFactory.get_product_info. simpl adapters.
  split; [reflexivity |]. split; [apply run_head_event |].
  simpl. destruct (supports_url adapter url) as [[|] |]; try reflexivity.
  - destruct (get_product_info adapter url) as [[info |] | e]; try reflexivity;
      destruct (run (adapters self) url); reflexivity.
  - destruct (run (adapters self) url); reflexivity.
Qed.

(** An adapter added with any other priority goes to the end. *)
Lemma add_adapter_back (self : AdapterFactory.t) (adapter : BaseAdapter) (priority : Z) :
  priority <> 0%Z ->
  adapters (add_adapter self adapter priority) = adapters self ++ [adapter].
Proof.
  intros H. unfold add_adapter.
  destruct (Z.eqb_spec priority 0) as [E | _]; [contradiction | reflexivity].
Qed.

(** What [supports_url] raises is not caught: the call is outside the
    [try] block. *)
Lemma supports_url_fault_propagates
      (a : BaseAdapter) (rest : list BaseAdapter) (url : pystr) (e : exn) :
  supports_url a url = Raise e ->
  AdapterFactory.get_product_info (registry (a :: rest)) url = Raise e.
Proof.
  intros H. unfold AdapterFactory.get_product_info. simpl. rewrite H. reflexivity.
Qed.

End Factory.

(** ** Strings *)

Section Strings.

Section Strip.

Variable space : pychar -> bool.

Local Abbreviation head_ok := (Spec.head_ok space).

Lemma lstrip_head_ok (s : pystr) : head_ok (lstrip_by space s).
Proof.
  induction s as [| c t IH]; simpl; [exact I |].
  destruct (space c) eqn:E; [exact IH | exact E].
Qed.

Lemma lstrip_fixed (s : pystr) : head_ok s -> lstrip_by space s = s.
Proof.
  destruct s as [| c t]; simpl; [reflexivity |].
  intros H. rewrite H. reflexivity.
Qed.

Lemma lstrip_suffix (s : pystr) : exists w, s = w ++ lstrip_by space s.
Proof.
  induction s as [| c t [w IH]]; simpl.
  - exists []. reflexivity.
  - destruct (space c).
    + exists (c :: w). simpl. f_equal. exact IH.
    + exists []. reflexivity.
Qed.

Lemma rstrip_prefix (s : pystr) : exists w, s = rstrip_by space s ++ w.
Proof.
  unfold rstrip_by. destruct (lstrip_suffix (rev s)) as [w Hw].
  exists (rev w). rewrite <- rev_app_distr, <- Hw, rev_involutive. reflexivity.
Qed.

Lemma rstrip_head_ok (s : pystr) : head_ok s -> head_ok (rstrip_by space s).
Proof.
  intros H. destruct (rstrip_prefix s) as [w Hw].
  destruct (rstrip_by space s) as [| c t]; [exact I |].
  rewrite Hw in H. exact H.
Qed.

Lemma rstrip_last_ok (s : pystr) : head_ok (rev (rstrip_by space s)).
Proof.
  unfold rstrip_by. rewrite rev_involutive. apply lstrip_head_ok.
Qed.

(** A text is left alone exactly when neither end is whitespace. *)
Lemma strip_by_fixed_iff (s : pystr) :
  strip_by space s = s <-> head_ok s /\ head_ok (rev s).
Proof.
  unfold strip_by. split.
  - intros H. rewrite <- H. split.
    + apply rstrip_head_ok, lstrip_head_ok.
    + apply rstrip_last_ok.
  - intros [Hh Hl]. rewrite (lstrip_fixed _ Hh). unfold rstrip_by.
    rewrite (lstrip_fixed _ Hl). apply rev_involutive.
Qed.

Lemma head_ok_app (a b : pystr) : a <> [] -> head_ok a -> head_ok (a ++ b).
Proof.
  destruct a as [| c t]; [congruence | intros _ H; exact H].
Qed.

End Strip.

Local Abbreviation head_ok := (Spec.head_ok is_space).

Lemma trimmed_iff (s : pystr) : Spec.trimmed s <-> head_ok s /\ head_ok (rev s).
Proof. apply strip_by_fixed_iff. Qed.

(** [strip] is idempotent: what it returns is trimmed. *)
Lemma strip_trimmed (s : pystr) : Spec.trimmed (strip s).
Proof.
  apply trimmed_iff. unfold strip, strip_by. split.
  - apply rstrip_head_ok, lstrip_head_ok.
  - apply rstrip_last_ok.
Qed.

(** Joining non-empty trimmed pieces gives a trimmed text. *)
Lemma concat_trimmed (l : list pystr) :
  Forall (fun w => w <> [] /\ Spec.trimmed w) l -> Spec.trimmed (List.concat l).
Proof.
  intros H. apply trimmed_iff. induction H as [| w l [Hne Hw] Hl [IHh IHl]]; simpl.
  - split; exact I.
  - apply trimmed_iff in Hw. destruct Hw as [Hwh Hwl]. split.
    + apply head_ok_app; assumption.
    + rewrite rev_app_distr. destruct (List.concat l) as [| c t] eqn:E.
      * simpl. exact Hwl.
      * apply head_ok_app; [| exact IHl].
        intros Hnil. apply (f_equal (@rev pychar)) in Hnil.
        rewrite rev_involutive in Hnil. discriminate Hnil.
Qed.

Lemma get_text_strip_trimmed (element : Tag) :
  Spec.trimmed (HtmlAdapter.get_text_strip element).
Proof.
  unfold HtmlAdapter.get_text_strip. apply concat_trimmed.
  apply Forall_forall. intros w Hw. apply filter_In in Hw. destruct Hw as [Hin Hne].
  split.
  - destruct w; [discriminate Hne | discriminate].
  - apply in_map_iff in Hin. destruct Hin as [x [Hx _]]. subst w. apply strip_trimmed.
Qed.

End Strings.

(** ** The HTML adapter: what a returned record satisfies *)

Section HtmlFound.

Lemma valid_name_length (text : pystr) :
  HtmlAdapter.valid_name text = true -> 4 <= List.length text.
Proof.
  unfold HtmlAdapter.valid_name. destruct text as [| c t]; [discriminate |].
  intros H. apply Nat.ltb_lt in H. exact H.
Qed.

Lemma name_candidate_ok (soup : Soup) (selector text : pystr) :
  HtmlAdapter.name_candidate soup selector = Ok (Some text) -> Spec.name_ok text.
Proof.
  unfold HtmlAdapter.name_candidate.
  destruct (startswith selector (lit "meta"));
    destruct (HtmlAdapter.select_one soup selector) as [[element |] | e];
    simpl; try discriminate.
  - destruct (HtmlAdapter.valid_name _) eqn:V; [| discriminate].
    intros H. injection H as <-. split; [apply strip_trimmed | apply valid_name_length, V].
  - destruct (HtmlAdapter.valid_name _) eqn:V; [| discriminate].
    intros H. injection H as <-.
    split; [apply get_text_strip_trimmed | apply valid_name_length, V].
Qed.

Lemma first_name_ok (soup : Soup) (selectors : list pystr) (text : pystr) :
  HtmlAdapter.first_name soup selectors = Some text -> Spec.name_ok text.
Proof.
  induction selectors as [| selector rest IH]; simpl; [discriminate |].
  destruct (HtmlAdapter.name_candidate soup selector) as [[t |] | e] eqn:E; auto.
  intros H. injection H as <-. eapply name_candidate_ok, E.
Qed.

(** A record of the HTML adapter comes from a page on which
    [_extract_name] and [_extract_price] both succeeded. *)
Lemma html_found_inv (env : Env) (url : pystr) (info : ProductInfo) :
  HtmlAdapter.get_product_info env url = Ok (Some info) ->
  exists soup,
    HtmlAdapter._extract_name soup url = Some (name info)
    /\ HtmlAdapter._extract_price soup url = Some (price info).
Proof.
  unfold HtmlAdapter.get_product_info, HtmlAdapter.scrape.
  destruct (html_session_get env url) as [response | e]; simpl; [| discriminate].
  destruct (raise_for_status response) as [[] | e]; simpl; [| discriminate].
  destruct (BeautifulSoup env (content response)) as [soup | e]; simpl; [| discriminate].
  destruct (HtmlAdapter._extract_name soup url) as [n |] eqn:En; [| discriminate].
  destruct (HtmlAdapter._extract_price soup url) as [p |] eqn:Ep; [| discriminate].
  intros H. injection H as <-. exists soup. simpl. split; assumption.
Qed.

(** The float Python writes [0.01] is a little above one hundredth. *)
Lemma literal_cent :
  Float.literal (1 # 100) = Fin (5764607523034235 # 576460752303423488).
Proof. vm_compute. reflexivity. Qed.

Lemma reasonable_in_range (p : pyfloat) :
  HtmlAdapter.reasonable p = true -> Spec.price_in_range p.
Proof.
  unfold HtmlAdapter.reasonable. rewrite literal_cent.
  destruct p as [q | | |]; simpl; try discriminate.
  intros H. apply andb_prop in H. destruct H as [Hlo Hhi].
  apply Qle_bool_iff in Hlo. apply Qle_bool_iff in Hhi.
  exists q. split; [reflexivity |]. split; [| exact Hhi].
  eapply Qle_trans; [| exact Hlo]. unfold Qle. simpl. lia.
Qed.

Lemma first_price_of_matches_reasonable (matches : list pystr) (p : pyfloat) :
  HtmlAdapter.first_price_of_matches matches = Ok (Some p) ->
  HtmlAdapter.reasonable p = true.
Proof.
  induction matches as [| m rest IH]; simpl; [discriminate |].
  destruct (Float.of_str (remove_char 44 m)) as [price | e].
  - destruct (HtmlAdapter.reasonable price) eqn:R; [| exact IH].
    intros H. injection H as <-. exact R.
  - destruct (is_value_or_type_error e); [exact IH | discriminate].
Qed.

Lemma first_price_of_patterns_reasonable
      (text : pystr) (patterns : list Re.pattern) (p : pyfloat) :
  HtmlAdapter.first_price_of_patterns text patterns = Ok (Some p) ->
  HtmlAdapter.reasonable p = true.
Proof.
  induction patterns as [| pattern rest IH]; simpl; [discriminate |].
  destruct (HtmlAdapter.first_price_of_matches (Re.findall pattern text))
    as [[price |] | e] eqn:E; simpl; try discriminate; [| exact IH].
  intros H. injection H as <-. eapply first_price_of_matches_reasonable, E.
Qed.

(** Whatever the text and the patterns, a price [_parse_price_text]
    returns has passed [0.01 <= price <= 999999]. *)
Lemma parse_price_text_reasonable
      (text : pystr) (patterns : list Re.pattern) (p : pyfloat) :
  HtmlAdapter._parse_price_text text patterns = Ok (Some p) ->
  HtmlAdapter.reasonable p = true.
Proof.
  unfold HtmlAdapter._parse_price_text. destruct text; [discriminate |].
  apply first_price_of_patterns_reasonable.
Qed.

Lemma first_price_of_elements_reasonable
      (elements : list Tag) (patterns : list Re.pattern) (p : pyfloat) :
  HtmlAdapter.first_price_of_elements elements patterns = Ok (Some p) ->
  HtmlAdapter.reasonable p = true.
Proof.
  induction elements as [| element rest IH]; simpl; [discriminate |].
  destruct (HtmlAdapter._parse_price_text (HtmlAdapter.get_text_strip element) patterns)
    as [[price |] | e] eqn:E; simpl; try discriminate; [| exact IH].
  intros H. injection H as <-. eapply parse_price_text_reasonable, E.
Qed.

Lemma price_candidate_reasonable (soup : Soup) (selector : pystr) (p : pyfloat) :
  HtmlAdapter.price_candidate soup selector = Ok (Some p) ->
  HtmlAdapter.reasonable p = true.
Proof.
  unfold HtmlAdapter.price_candidate. destruct (startswith selector (lit "meta")).
  - destruct (HtmlAdapter.select_one soup selector) as [[element |] | e];
      simpl; try discriminate.
    apply parse_price_text_reasonable.
  - destruct (select soup selector) as [elements | e]; simpl; [| discriminate].
    apply first_price_of_elements_reasonable.
Qed.

Lemma first_price_reasonable (soup : Soup) (selectors : list pystr) (p : pyfloat) :
  HtmlAdapter.first_price soup selectors = Some p ->
  HtmlAdapter.reasonable p = true.
Proof.
  induction selectors as [| selector rest IH]; simpl; [discriminate |].
  destruct (HtmlAdapter.price_candidate soup selector) as [[price |] | e] eqn:E; auto.
  intros H. injection H as <-. eapply price_candidate_reasonable, E.
Qed.

End HtmlFound.

(** ** Price and name validation *)

Section Validation.

Lemma zero_not_in_range : ~ Spec.price_in_range (Fin 0).
Proof.
  intros [q [E [Hlo _]]]. injection E as <-. unfold Qle in Hlo. simpl in Hlo. lia.
Qed.

Lemma million_not_in_range : ~ Spec.price_in_range (Fin 1000000).
Proof.
  intros [q [E [_ Hhi]]]. injection E as <-. unfold Qle in Hhi. simpl in Hhi. lia.
Qed.

(** C2, as stated, fails on the structured-data path: through the
    default registry, a JSON-LD product offered at [0.00] is returned
    with price 0.0, and one offered at 1000000 with price 1000000.0. *)
Lemma structured_price_not_validated :
  (AdapterFactory.get_product_info (AdapterFactory.__init__ Examples.free_page) Examples.url
     = Ok (Some {| name := lit "Widget Pro"; price := Fin 0 |})
   /\ ~ Spec.price_in_range (Fin 0))
  /\ (AdapterFactory.get_product_info (AdapterFactory.__init__ Examples.million_page) Examples.url
        = Ok (Some {| name := lit "Widget Pro"; price := Fin 1000000 |})
      /\ ~ Spec.price_in_range (Fin 1000000)).
Proof.
  split; split.
  - vm_compute. reflexivity.
  - exact zero_not_in_range.
  - vm_compute. reflexivity.
  - exact million_not_in_range.
Qed.

(** C2, amended.  On the heuristic path a candidate price of 0.00, of
    1000000, or a text with no number is rejected, and every record the
    HTML adapter returns has a finite price in [0.01, 999999], whatever
    the page.  On the structured-data path a text that [float] cannot
    convert is rejected; the range is not checked there. *)
Theorem heuristic_price_validated :
  (forall (env : Env) (url : pystr) (info : ProductInfo),
      HtmlAdapter.get_product_info env url = Ok (Some info) ->
      Spec.price_in_range (price info))
  /\ HtmlAdapter._parse_price_text (lit "0.00") HtmlAdapter.price_patterns = Ok None
  /\ HtmlAdapter._parse_price_text (lit "1000000") HtmlAdapter.price_patterns = Ok None
  /\ HtmlAdapter._parse_price_text (lit "call us") HtmlAdapter.price_patterns = Ok None
  /\ JsonLdAdapter._extract_price_from_offers (Examples.price_offer (VStr (lit "call us")))
      = Ok None.
Proof.
  split; [| repeat split; vm_compute; reflexivity].
  intros env url info H. destruct (html_found_inv _ _ H) as [soup [_ Hp]].
  apply reasonable_in_range. eapply first_price_reasonable, Hp.
Qed.

Lemma heuristic_price_validated_example :
  HtmlAdapter.get_product_info (Examples.page_env [] Examples.shop_soup) Examples.url
    = Ok (Some {| name := lit "Widget Pro"; price := Float.literal (4999 # 100) |})
  /\ Spec.price_in_range (Float.literal (4999 # 100)).
Proof.
  assert (E : HtmlAdapter.get_product_info (Examples.page_env [] Examples.shop_soup)
                Examples.url
              = Ok (Some {| name := lit "Widget Pro"; price := Float.literal (4999 # 100) |})).
  { vm_compute. reflexivity. }
  split; [exact E |].
  exact (proj1 heuristic_price_validated _ _ _ E).
Defined.

(** C3, as stated, fails on the structured-data path: through the
    default registry, a JSON-LD product named [ab] is returned with
    that two-character name. *)
Lemma structured_name_not_validated :
  AdapterFactory.get_product_info (AdapterFactory.__init__ Examples.short_name_page)
    Examples.url
    = Ok (Some {| name := lit "ab"; price := Fin 25 |})
  /\ ~ Spec.name_ok (lit "ab").
Proof.
  split.
  - vm_compute. reflexivity.
  - intros [_ H]. simpl in H. lia.
Qed.

(** C3, amended.  Every record the HTML adapter returns has a name
    with no whitespace at either end and at least 4 characters, whatever
    the page: shorter candidates are passed over.  (The structured-data
    path only asks that the name value be truthy.) *)
Theorem heuristic_name_validated (env : Env) (url : pystr) (info : ProductInfo) :
  HtmlAdapter.get_product_info env url = Ok (Some info) ->
  Spec.name_ok (name info).
Proof.
  intros H. destruct (html_found_inv _ _ H) as [soup [Hn _]].
  eapply first_name_ok, Hn.
Qed.

Lemma heuristic_name_validated_example : Spec.name_ok (lit "Widget Pro").
Proof.
  apply (@heuristic_name_validated (Examples.page_env [] Examples.shop_soup) Examples.url
           {| name := lit "Widget Pro"; price := Float.literal (4999 # 100) |}).
  vm_compute. reflexivity.
Defined.

End Validation.

(** ** The order of the name candidates *)

Section NamePriority.

Lemma first_name_first_valid
      (soup : Soup) (before after : list pystr) (selector text : pystr) :
  Forall (Spec.no_name soup) before ->
  HtmlAdapter.name_candidate soup selector = Ok (Some text) ->
  HtmlAdapter.first_name soup (before ++ selector :: after) = Some text.
Proof.
  intros Hb Hc. induction Hb as [| s before [Hs | [e Hs]] _ IH]; simpl.
  - rewrite Hc. reflexivity.
  - rewrite Hs. exact IH.
  - rewrite Hs. exact IH.
Qed.




(** A valid heading is returned whatever else the page holds. *)
Lemma heading_beats_all (soup : Soup) (url text : pystr) :
  HtmlAdapter.name_candidate soup (lit "h1") = Ok (Some text) ->
  HtmlAdapter._extract_name soup url = Some text.
Proof.
  intros H. unfold HtmlAdapter._extract_name, HtmlAdapter.name_selectors.
  simpl. rewrite H. reflexivity.
Qed.

(** With nothing valid before them, [og:title] is returned whatever the
    meta tag named [title] holds. *)
Lemma og_title_beats_meta_name_title (soup : Soup) (url text : pystr) :
  Forall (Spec.no_name soup) (firstn 6 HtmlAdapter.name_selectors) ->
  HtmlAdapter.name_candidate soup
    (HtmlAdapter.attr_selector "meta" "property" "=" "og:title") = Ok (Some text) ->
  HtmlAdapter._extract_name soup url = Some text.
Proof.
  intros Hb Hc.
  exact (@first_name_first_valid soup _ (skipn 7 HtmlAdapter.name_selectors) _ _ Hb Hc).
Qed.

End NamePriority.

(** ** Offers in structured data *)

Section Offers.

Lemma scan_offers_dict (d : list (pystr * pyval)) (rest : list pyval) :
  JsonLdAdapter.scan_offers (VDict d :: rest) =
    let price := JsonLdAdapter._get_nested_value (VDict d) JsonLdAdapter.offer_price_keys in
    if Py.is_not_None price then
      match Py.float (JsonLdAdapter.clean_price price) with
      | Ok f => Ok (Some f)
      | Raise e =>
          if is_value_or_type_error e then JsonLdAdapter.scan_offers rest else Raise e
      end
    else JsonLdAdapter.scan_offers rest.
Proof. reflexivity. Qed.






(** The keys are tried in the order of the key list, not in the order
    of the dictionary, and the nested key is the last resort. *)
Lemma offer_key_order :
  JsonLdAdapter._extract_price_from_offers
    (VDict [(lit "highPrice", VInt 9); (lit "lowPrice", VInt 5); (lit "price", VInt 7)])
    = Ok (Some (Fin 7))
  /\ JsonLdAdapter._extract_price_from_offers
       (VDict [(lit "highPrice", VInt 9); (lit "lowPrice", VInt 5)])
     = Ok (Some (Fin 5))
  /\ JsonLdAdapter._extract_price_from_offers
       (VDict [(lit "priceSpecification", VDict [(lit "price", VInt 3)]);
               (lit "highPrice", VInt 9)])
     = Ok (Some (Fin 9))
  /\ JsonLdAdapter._extract_price_from_offers
       (VDict [(lit "priceSpecification", VDict [(lit "price", VInt 3)])])
     = Ok (Some (Fin 3)).
Proof. repeat split; vm_compute; reflexivity. Qed.

(** In JSON-LD a single offer object is handled as the one-element
    list that holds it. *)
Lemma jsonld_single_offer_as_list (d : list (pystr * pyval)) :
  JsonLdAdapter._extract_price_from_offers (VDict d)
  = JsonLdAdapter._extract_price_from_offers (VList [VDict d]).
Proof.
  destruct d as [| kv d]; reflexivity.
Qed.

(** C7 at the failing input.  In microdata a product whose [offers]
    property is a single offer object yields nothing, while the same
    offer in a one-element list yields the record: the microdata branch
    scans [offers] only when it is a list. *)
Lemma microdata_single_offer_ignored (repr : pyval -> pystr) :
  JsonLdAdapter._extract_from_microdata repr
    [Examples.microdata_product Examples.microdata_offer] = Ok None
  /\ JsonLdAdapter._extract_from_microdata repr
       [Examples.microdata_product (VList [Examples.microdata_offer])]
     = Ok (Some {| name := lit "Widget Pro"; price := Fin 25 |}).
Proof. split; vm_compute; reflexivity. Qed.

End Offers.

(** ** The price normalization on the examples of the specification *)

Section Normalizer.

(** C8.  Both price normalizations: [_parse_price_text] of the HTML
    adapter and [_extract_price_from_offers] of the JSON-LD adapter
    turn [$49.99] into the float 49.99, [1,199.99] into 1199.99 and [29]
    into 29.0; a text with no number is rejected. *)
Theorem price_normalizer_examples :
  (HtmlAdapter._parse_price_text (lit "$49.99") HtmlAdapter.price_patterns
     = Ok (Some (Float.literal (4999 # 100)))
   /\ HtmlAdapter._parse_price_text (lit "1,199.99") HtmlAdapter.price_patterns
      = Ok (Some (Float.literal (119999 # 100)))
   /\ HtmlAdapter._parse_price_text (lit "29") HtmlAdapter.price_patterns
      = Ok (Some (Fin 29))
   /\ HtmlAdapter._parse_price_text (lit "N/A") HtmlAdapter.price_patterns = Ok None)
  /\ (JsonLdAdapter._extract_price_from_offers (Examples.price_offer (VStr (lit "$49.99")))
       = Ok (Some (Float.literal (4999 # 100)))
      /\ JsonLdAdapter._extract_price_from_offers
           (Examples.price_offer (VStr (lit "1,199.99")))
         = Ok (Some (Float.literal (119999 # 100)))
      /\ JsonLdAdapter._extract_price_from_offers (Examples.price_offer (VStr (lit "29")))
         = Ok (Some (Fin 29))
      /\ JsonLdAdapter._extract_price_from_offers (Examples.price_offer (VStr (lit "N/A")))
         = Ok None).
Proof. repeat split; vm_compute; reflexivity. Qed.

(** The HTML patterns know five currency symbols, before or after the
    number; the JSON-LD cleaning removes the dollar sign only, so a
    price text with another symbol does not convert there. *)
Lemma currency_symbols_by_path :
  HtmlAdapter._parse_price_text [163; 52; 57; 46; 57; 57]%N HtmlAdapter.price_patterns
    = Ok (Some (Float.literal (4999 # 100)))
  /\ HtmlAdapter._parse_price_text [55; 46; 53; 48; 32; 8364]%N HtmlAdapter.price_patterns
     = Ok (Some (Float.literal (75 # 10)))
  /\ JsonLdAdapter._extract_price_from_offers
       (Examples.price_offer (VStr [163; 52; 57; 46; 57; 57]%N))
     = Ok None.
Proof. repeat split; vm_compute; reflexivity. Qed.

End Normalizer.

(** ** Digit strings and [float] *)

Section Digits.

Lemma digit_cases (c : pychar) :
  is_digit c = true -> In c [48; 49; 50; 51; 52; 53; 54; 55; 56; 57]%N.
Proof.
  unfold is_digit, in_range. intros H. apply andb_prop in H. destruct H as [H1 H2].
  apply N.leb_le in H1. apply N.leb_le in H2. simpl. lia.
Qed.

(** Settles a goal about one digit by trying the ten of them. *)
Ltac by_digit_cases H :=
  apply digit_cases in H; simpl in H;
  repeat (destruct H as [<- | H]; [reflexivity |]); contradiction.

Lemma digit_not_space (c : pychar) : is_digit c = true -> is_space c = false.
Proof. intros H. by_digit_cases H. Qed.

Lemma digit_not_comma (c : pychar) : is_digit c = true -> char_eqb c 44 = false.
Proof. intros H. by_digit_cases H. Qed.

Lemma digit_not_underscore (c : pychar) : is_digit c = true -> N.eqb c 95 = false.
Proof. intros H. by_digit_cases H. Qed.

Lemma digit_not_sign (c : pychar) :
  is_digit c = true -> N.eqb c 45 = false /\ N.eqb c 43 = false.
Proof. intros H. split; by_digit_cases H. Qed.

Lemma digit_not_currency (c : pychar) :
  is_digit c = true -> HtmlAdapter.currency c = false.
Proof. intros H. by_digit_cases H. Qed.

Lemma digit_not_separator (c : pychar) :
  is_digit c = true -> HtmlAdapter.comma_or_dot c = false /\ HtmlAdapter.dot c = false.
Proof. intros H. split; by_digit_cases H. Qed.

Lemma digit_not_float_space (c : pychar) : is_digit c = true -> Float.is_space c = false.
Proof. intros H. by_digit_cases H. Qed.

(** [float] strips nothing from a text of digits. *)
Lemma digits_float_trimmed (ds : pystr) :
  Spec.digits ds -> strip_by Float.is_space ds = ds.
Proof.
  intros H. apply strip_by_fixed_iff. split.
  - destruct H as [| c t Hc _]; [exact I | apply digit_not_float_space, Hc].
  - apply Forall_rev in H.
    destruct H as [| c t Hc _]; [exact I | apply digit_not_float_space, Hc].
Qed.

Lemma span_digits (ds : pystr) : Spec.digits ds -> span is_digit ds = (ds, []).
Proof.
  induction 1 as [| c t Hc _ IH]; simpl; [reflexivity |].
  rewrite Hc, IH. reflexivity.
Qed.

Lemma remove_comma_digits (ds : pystr) : Spec.digits ds -> remove_char 44 ds = ds.
Proof.
  induction 1 as [| c t Hc _ IH]; simpl; [reflexivity |].
  rewrite (digit_not_comma _ Hc). simpl. rewrite IH. reflexivity.
Qed.

Lemma drop_underscores_digits (ds : pystr) (prev : option pychar) :
  Spec.digits ds ->
  match prev with Some p => N.eqb p 95 | None => false end = false ->
  Float.drop_underscores prev ds = Some ds.
Proof.
  intros H. revert prev. induction H as [| c t Hc _ IH]; intros prev Hp; simpl.
  - rewrite Hp. reflexivity.
  - rewrite (digit_not_underscore _ Hc), Hp. simpl.
    rewrite (IH (Some c) (digit_not_underscore _ Hc)). reflexivity.
Qed.

Lemma parse_decimal_digits (ds : pystr) :
  ds <> [] -> Spec.digits ds ->
  Float.parse_decimal ds = Some (inject_Z (Float.digits_value ds)).
Proof.
  intros Hne H. unfold Float.parse_decimal. rewrite (span_digits H).
  rewrite app_nil_r. destruct ds as [| c t]; [congruence |].
  cbn [Float.parse_exponent List.length Z.of_nat Z.sub Z.opp Z.leb Z.compare].
  rewrite Z.pow_0_r, Z.mul_1_r. reflexivity.
Qed.

(** [float] of a text of digits is the integer they write, rounded. *)
Lemma of_str_digits (ds : pystr) :
  ds <> [] -> Spec.digits ds ->
  Float.of_str ds = Ok (Float.binary64 (inject_Z (Float.digits_value ds))).
Proof.
  intros Hne H. unfold Float.of_str.
  rewrite (digits_float_trimmed H), (drop_underscores_digits None H eq_refl).
  assert (Hs : Float.parse_sign ds = (false, ds)).
  { destruct H as [| c t Hc _]; [congruence |]. unfold Float.parse_sign.
    destruct (digit_not_sign _ Hc) as [-> ->]. reflexivity. }
  rewrite Hs, (parse_decimal_digits Hne H). reflexivity.
Qed.

End Digits.

(** ** The matcher on texts of digits and commas *)

Section Regex.

Variable A : Type.

(** When the continuation fails on every suffix, so does the match. *)
Lemma star_none (c : pychar -> bool) (k : pystr -> option A) (s : pystr) :
  (forall w s', s = w ++ s' -> k s' = None) -> Re.star c k s = None.
Proof.
  induction s as [| x t IH]; intros H; simpl.
  - apply (H [] []). reflexivity.
  - assert (Hs : k (x :: t) = None) by (apply (H [] (x :: t)); reflexivity).
    destruct (c x); [| exact Hs].
    rewrite IH; [exact Hs |].
    intros w s' E. apply (H (x :: w) s'). rewrite E. reflexivity.
Qed.

Lemma match_items_none (items : list Re.item) (k : pystr -> option A) (s : pystr) :
  (forall w s', s = w ++ s' -> k s' = None) -> Re.match_items items k s = None.
Proof.
  revert k s. induction items as [| it rest IH]; intros k s H; simpl.
  - apply (H [] s). reflexivity.
  - assert (Htail : forall x t, s = x :: t -> Re.match_items rest k t = None).
    { intros x t E. apply IH. intros w s' E'. apply (H (x :: w) s').
      rewrite E, E'. reflexivity. }
    assert (Hstar : forall u v, s = u ++ v ->
                      Re.star (Re.cls it) (Re.match_items rest k) v = None).
    { intros u v E. apply star_none. intros w s' E'. apply IH. intros w' s'' E''.
      apply (H (u ++ w ++ w') s''). rewrite E, E', E''.
      rewrite <- !app_assoc. reflexivity. }
    destruct (Re.q it).
    + destruct s as [| x t]; [reflexivity |].
      destruct (Re.cls it x); [| reflexivity]. apply (Htail x t eq_refl).
    + destruct s as [| x t]; [apply IH, H |].
      destruct (Re.cls it x); [rewrite (Htail x t eq_refl) |]; apply IH, H.
    + apply (Hstar [] s eq_refl).
    + destruct s as [| x t]; [reflexivity |].
      destruct (Re.cls it x); [| reflexivity]. apply (Hstar [x] t eq_refl).
Qed.

(** A greedy run takes every character of the class in front of it
    when the rest of the pattern matches what follows. *)
Lemma star_greedy (c : pychar -> bool) (k : pystr -> option A)
      (run rest : pystr) (r : A) :
  Forall (fun x => c x = true) run ->
  match rest with [] => True | x :: _ => c x = false end ->
  k rest = Some r ->
  Re.star c k (run ++ rest) = Some r.
Proof.
  intros Hrun Hrest Hk. induction Hrun as [| x t Hx _ IH]; simpl.
  - destruct rest as [| y u]; [exact Hk |]. simpl. rewrite Hrest. exact Hk.
  - rewrite Hx, IH. reflexivity.
Qed.

(** The number group takes the whole of [digits , digits]. *)
Lemma number_matches_whole (k : pystr -> option A) (a b : pystr) (r : A) :
  a <> [] -> Spec.digits a -> Spec.digits b ->
  k [] = Some r ->
  Re.match_items HtmlAdapter.number k (a ++ 44%N :: b) = Some r.
Proof.
  intros Hne Ha Hb Hk. destruct Ha as [| x a' Hx Ha']; [congruence |].
  unfold HtmlAdapter.number. cbn [Re.match_items Re.q Re.cls Re.plus app].
  rewrite Hx. apply star_greedy; [exact Ha' | reflexivity |].
  cbn [Re.match_items Re.q Re.cls Re.opt Re.star_of].
  replace (HtmlAdapter.comma_or_dot 44) with true by reflexivity.
  assert (E : Re.star is_digit
                (Re.match_items [Re.opt HtmlAdapter.dot; Re.star_of is_digit] k) b
              = Some r).
  { rewrite <- (app_nil_r b). apply star_greedy; [exact Hb | exact I |].
    simpl. exact Hk. }
  cbn [Re.match_items Re.q Re.cls Re.opt Re.star_of] in E. rewrite E. reflexivity.
Qed.

End Regex.

Section Findall.

Lemma findall_from_none (p : Re.pattern) (s : pystr) (n : nat) :
  (forall w s', s = w ++ s' -> Re.match_at p s' = None) ->
  Re.findall_from p n s = [].
Proof.
  revert n. induction s as [| x t IH]; intros n H; simpl.
  - rewrite (H [] [] eq_refl). destruct n; reflexivity.
  - assert (Ht : forall m, Re.findall_from p m t = []).
    { intros m. apply IH. intros w s' E. apply (H (x :: w) s'). rewrite E. reflexivity. }
    destruct n; [| apply Ht]. rewrite (H [] (x :: t) eq_refl). apply Ht.
Qed.

Lemma findall_from_skip_all (p : Re.pattern) (s : pystr) :
  Re.match_at p [] = None -> Re.findall_from p (List.length s) s = [].
Proof.
  intros H. induction s as [| x t IH]; simpl; [rewrite H; reflexivity | exact IH].
Qed.

Local Abbreviation currency_free := Spec.currency_free.

Lemma currency_free_suffix (w s s' : pystr) :
  currency_free s -> s = w ++ s' -> currency_free s'.
Proof.
  intros H E. rewrite E in H. apply Forall_app in H. apply H.
Qed.

Lemma currency_first_none (s : pystr) :
  currency_free s ->
  Re.findall HtmlAdapter.currency_before s = [].
Proof.
  intros H. apply findall_from_none. intros w s' E.
  apply (@currency_free_suffix _ _ _ H) in E.
  unfold Re.match_at. cbn [HtmlAdapter.currency_before Re.prefix Re.match_items Re.q Re.one].
  destruct E as [| x t Hx _]; [reflexivity |].
  cbn [Re.match_items Re.q Re.cls Re.one]. rewrite Hx. reflexivity.
Qed.

Lemma currency_last_none (s : pystr) :
  currency_free s ->
  Re.findall HtmlAdapter.currency_after s = [].
Proof.
  intros H. apply findall_from_none. intros w s' E.
  apply (@currency_free_suffix _ _ _ H) in E.
  unfold Re.match_at.
  cbn [HtmlAdapter.currency_after Re.prefix Re.group Re.suffix].
  cbn [Re.match_items]. apply match_items_none. intros w2 s2 E2.
  apply (@currency_free_suffix _ _ _ E) in E2.
  cbn [Re.match_items Re.q Re.cls Re.star_of Re.one]. apply star_none. intros w3 s3 E3.
  apply (@currency_free_suffix _ _ _ E2) in E3.
  destruct E3 as [| x t Hx _]; [reflexivity |]. rewrite Hx. reflexivity.
Qed.

Lemma bare_number_whole (a b : pystr) :
  a <> [] -> Spec.digits a -> Spec.digits b ->
  Re.findall HtmlAdapter.bare_number (a ++ 44%N :: b) = [a ++ 44%N :: b].
Proof.
  intros Hne Ha Hb.
  assert (Hm : Re.match_at HtmlAdapter.bare_number (a ++ 44%N :: b)
               = Some (a ++ 44%N :: b, [])).
  { unfold Re.match_at.
    cbn [HtmlAdapter.bare_number Re.prefix Re.group Re.suffix].
    cbn [Re.match_items]. apply number_matches_whole; try assumption.
    cbn [Re.match_items List.length]. rewrite Nat.sub_0_r, firstn_all. reflexivity. }
  unfold Re.findall. destruct a as [| x a']; [congruence |].
  cbn [app] in *. cbn [Re.findall_from]. rewrite Hm.
  cbn [List.length]. rewrite Nat.sub_0_r. cbn [Nat.sub]. rewrite Nat.sub_0_r.
  rewrite findall_from_skip_all; reflexivity.
Qed.

End Findall.

(** ** Commas in the heuristic price parser *)

Section Commas.

Lemma remove_char_idempotent (c : pychar) (s : pystr) :
  remove_char c (remove_char c s) = remove_char c s.
Proof.
  unfold remove_char. induction s as [| x t IH]; simpl; [reflexivity |].
  destruct (negb (char_eqb x c)) eqn:E; simpl; [rewrite E, IH |]; auto.
Qed.

Lemma remove_char_absent (c : pychar) (s : pystr) : ~ In c (remove_char c s).
Proof.
  unfold remove_char. intros H. apply filter_In in H. destruct H as [_ H].
  unfold char_eqb in H. rewrite N.eqb_refl in H. discriminate H.
Qed.

Lemma remove_comma_joined (a b : pystr) :
  Spec.digits a -> Spec.digits b -> remove_char 44 (a ++ 44%N :: b) = a ++ b.
Proof.
  intros Ha Hb. unfold remove_char. rewrite filter_app. simpl.
  fold (remove_char 44 a). fold (remove_char 44 b).
  rewrite (remove_comma_digits Ha), (remove_comma_digits Hb). reflexivity.
Qed.

Lemma joined_currency_free (a b : pystr) :
  Spec.digits a -> Spec.digits b -> Spec.currency_free (a ++ 44%N :: b).
Proof.
  intros Ha Hb. apply Forall_app. split; [| apply Forall_cons; [reflexivity |]].
  - eapply Forall_impl; [| exact Ha]. intros c Hc. apply digit_not_currency, Hc.
  - eapply Forall_impl; [| exact Hb]. intros c Hc. apply digit_not_currency, Hc.
Qed.

Lemma first_price_of_matches_commas (matches : list pystr) :
  HtmlAdapter.first_price_of_matches matches
  = HtmlAdapter.first_price_of_matches (map (remove_char 44) matches).
Proof.
  induction matches as [| m rest IH]; simpl; [reflexivity |].
  rewrite remove_char_idempotent, IH. reflexivity.
Qed.

(** C10.  The price parser never sees a comma: what it converts is
    each match with every comma removed, so a match with commas and
    the same match without them give the same result.  For a text
    [digits , digits] this makes the comma a thousands separator: the
    price is the integer the digits write on both sides together, kept
    when it passes the range check.  In particular [29,99] gives 2999.0
    (the example below), not 29.99. *)
Theorem comma_never_decimal :
  (forall matches : list pystr,
      HtmlAdapter.first_price_of_matches matches
      = HtmlAdapter.first_price_of_matches (map (remove_char 44) matches)
      /\ Forall (fun m => ~ In 44%N m) (map (remove_char 44) matches))
  /\ (forall a b : pystr,
         a <> [] -> Spec.digits a -> Spec.digits b ->
         let price := Float.binary64 (inject_Z (Float.digits_value (a ++ b))) in
         HtmlAdapter._parse_price_text (a ++ 44%N :: b) HtmlAdapter.price_patterns
         = Ok (if HtmlAdapter.reasonable price then Some price else None)).
Proof.
  split.
  - intros matches. split; [apply first_price_of_matches_commas |].
    apply Forall_forall. intros m Hm. apply in_map_iff in Hm.
    destruct Hm as [x [<- _]]. apply remove_char_absent.
  - intros a b Hne Ha Hb price.
    assert (Hab : a ++ b <> []) by (destruct a; [congruence | discriminate]).
    assert (Hd : Spec.digits (a ++ b)) by (apply Forall_app; split; assumption).
    unfold HtmlAdapter._parse_price_text.
    destruct (a ++ 44%N :: b) as [| x t] eqn:Etext;
      [destruct a; discriminate Etext |].
    rewrite <- Etext. unfold HtmlAdapter.price_patterns.
    cbn [HtmlAdapter.first_price_of_patterns].
    rewrite (currency_first_none (joined_currency_free Ha Hb)).
    rewrite (currency_last_none (joined_currency_free Ha Hb)).
    rewrite (bare_number_whole Hne Ha Hb).
    cbn [HtmlAdapter.first_price_of_matches bind].
    rewrite (remove_comma_joined Ha Hb), (of_str_digits Hab Hd).
    fold price. destruct (HtmlAdapter.reasonable price); reflexivity.
Qed.

Lemma comma_never_decimal_example :
  HtmlAdapter._parse_price_text (lit "29,99") HtmlAdapter.price_patterns
  = Ok (Some (Fin 2999)).
Proof.
  refine (proj2 comma_never_decimal (lit "29") (lit "99") _ _ _).
  - discriminate.
  - repeat (apply Forall_cons; [reflexivity |]). apply Forall_nil.
  - repeat (apply Forall_cons; [reflexivity |]). apply Forall_nil.
Defined.

End Commas.

(** ** The default registry *)

Section DefaultRegistry.

Variable env : Env.

Lemma jsonld_supports_url_total (url : pystr) :
  exists b, JsonLdAdapter.supports_url env url = Ok b.
Proof.
  unfold JsonLdAdapter.supports_url.
  destruct (urlparse env url) as [parsed | e]; [| eexists; reflexivity].
  destruct (hostname parsed); eexists; reflexivity.
Qed.

Lemma html_supports_url_total (url : pystr) :
  exists b, HtmlAdapter.supports_url env url = Ok b.
Proof.
  unfold HtmlAdapter.supports_url.
  destruct (urlparse env url); eexists; reflexivity.
Qed.

(** Both adapters catch every exception of their own: a failed
    request, a page that does not parse, a fault in the extraction. *)
Lemma jsonld_get_product_info_total (url : pystr) :
  exists r, JsonLdAdapter.get_product_info env url = Ok r.
Proof.
  unfold JsonLdAdapter.get_product_info.
  destruct (JsonLdAdapter.scrape env url); eexists; reflexivity.
Qed.

Lemma html_get_product_info_total (url : pystr) :
  exists r, HtmlAdapter.get_product_info env url = Ok r.
Proof.
  unfold HtmlAdapter.get_product_info.
  destruct (HtmlAdapter.scrape env url); eexists; reflexivity.
Qed.

(** With the two adapters of [__init__] the factory raises on no url
    and no page at all. *)
Lemma default_registry_never_raises (url : pystr) :
  exists r, AdapterFactory.get_product_info (AdapterFactory.__init__ env) url = Ok r.
Proof.
  unfold AdapterFactory.get_product_info, AdapterFactory.__init__.
  cbn [AdapterFactory.adapters AdapterFactory.run JsonLdAdapter.adapter
       HtmlAdapter.adapter supports_url get_product_info class_name].
  destruct (jsonld_supports_url_total url) as [b1 ->].
  destruct (html_supports_url_total url) as [b2 ->].
  destruct (jsonld_get_product_info_total url) as [r1 ->].
  destruct (html_get_product_info_total url) as [r2 ->].
  destruct b1, b2, r1 as [i1 |], r2 as [i2 |]; eexists; reflexivity.
Qed.

(** When the structured-data adapter finds nothing, the HTML adapter's
    record is the factory's answer. *)
Lemma default_registry_falls_back (url : pystr) (info : ProductInfo) :
  JsonLdAdapter.get_product_info env url = Ok None ->
  HtmlAdapter.supports_url env url = Ok true ->
  HtmlAdapter.get_product_info env url = Ok (Some info) ->
  AdapterFactory.get_product_info (AdapterFactory.__init__ env) url = Ok (Some info).
Proof.
  intros Hj Hs Hh.
  unfold AdapterFactory.get_product_info, AdapterFactory.__init__.
  cbn [AdapterFactory.adapters AdapterFactory.run JsonLdAdapter.adapter
       HtmlAdapter.adapter supports_url get_product_info class_name].
  destruct (jsonld_supports_url_total url) as [b1 ->].
  rewrite Hj, Hs, Hh. destruct b1; reflexivity.
Qed.

End DefaultRegistry.

(** A page with no structured data and nothing the selectors match:
    both adapters are tried and the factory returns [None]. *)
Lemma default_registry_blank_page :
  AdapterFactory.get_product_info
    (AdapterFactory.__init__ (Examples.page_env (Examples.jsonld []) Examples.empty_soup))
    Examples.url = Ok None
  /\ List.length
       (AdapterFactory.trace
          (AdapterFactory.__init__ (Examples.page_env (Examples.jsonld []) Examples.empty_soup))
          Examples.url) = 5.
Proof. split; vm_compute; reflexivity. Qed.

(** * Further properties *)

(** ** The factory: what is called, and what for *)

Section FactoryCalls.

Local Abbreviation run := AdapterFactory.run.
Local Abbreviation registry := AdapterFactory.Build_t.
Local Abbreviation Called_supports_url := AdapterFactory.Called_supports_url.
Local Abbreviation Called_get_product_info := AdapterFactory.Called_get_product_info.
Local Abbreviation Log_info := AdapterFactory.Log_info.
Local Abbreviation Log_warning := AdapterFactory.Log_warning.
Local Abbreviation Log_error := AdapterFactory.Log_error.

(** A record the factory returns is the record of a registered adapter
    that accepted the url: the factory invents nothing and alters
    nothing. *)
Theorem factory_record_has_a_source
        (self : AdapterFactory.t) (url : pystr) (info : ProductInfo) :
  AdapterFactory.get_product_info self url = Ok (Some info) ->
  exists a, In a (AdapterFactory.adapters self) /\ Spec.finds url a info.
Proof.
  unfold AdapterFactory.get_product_info. destruct self as [l]. simpl.
  induction l as [| x l IH]; simpl; [discriminate |].
  destruct (supports_url x url) as [[|] |] eqn:Hs; simpl.
  - destruct (get_product_info x url) as [[i |] | e] eqn:Hg; simpl.
    + intros H. injection H as <-. exists x. split; [left; reflexivity | split; assumption].
    + destruct (run l url) as [evs r]. simpl in *. intros H.
      destruct (IH H) as [a [Ha Hf]]. exists a. split; [right |]; assumption.
    + destruct (run l url) as [evs r]. simpl in *. intros H.
      destruct (IH H) as [a [Ha Hf]]. exists a. split; [right |]; assumption.
  - destruct (run l url) as [evs r]. simpl in *. intros H.
    destruct (IH H) as [a [Ha Hf]]. exists a. split; [right |]; assumption.
  - discriminate.
Qed.

Lemma factory_record_has_a_source_example :
  exists a,
    In a [Examples.raising_adapter; Examples.finding_adapter]
    /\ Spec.finds Examples.url a Examples.widget.
Proof.
  apply (@factory_record_has_a_source
           (registry [Examples.raising_adapter; Examples.finding_adapter])
           Examples.url Examples.widget).
  reflexivity.
Defined.

(** Once an adapter has returned a record the loop is over: the calls,
    the log and the outcome are the same whatever adapters are
    registered after it. *)
Theorem factory_stops_at_first_record
        (l later : list BaseAdapter) (a : BaseAdapter) (url : pystr) (info : ProductInfo) :
  Spec.finds url a info ->
  run (l ++ a :: later) url = run (l ++ [a]) url.
Proof.
  intros [Hs Hg]. induction l as [| x l IH]; simpl.
  - rewrite Hs, Hg. reflexivity.
  - rewrite IH. reflexivity.
Qed.

Lemma factory_stops_at_first_record_example :
  run ([Examples.empty_adapter] ++ Examples.finding_adapter :: [Examples.raising_adapter])
      Examples.url
  = run ([Examples.empty_adapter] ++ [Examples.finding_adapter]) Examples.url.
Proof.
  apply (@factory_stops_at_first_record [Examples.empty_adapter]
           [Examples.raising_adapter] Examples.finding_adapter Examples.url
           Examples.widget).
  split; reflexivity.
Defined.

(** [get_product_info] is called only on adapters whose [supports_url]
    returned true for the url. *)
Theorem extraction_only_after_support
        (self : AdapterFactory.t) (url : pystr) (a : BaseAdapter) :
  In (Called_get_product_info a) (AdapterFactory.trace self url) ->
  supports_url a url = Ok true.
Proof.
  unfold AdapterFactory.trace. destruct self as [l]. simpl.
  induction l as [| x l IH]; simpl.
  - intros [H | []]. discriminate H.
  - destruct (supports_url x url) as [[|] |] eqn:Hs; simpl.
    + destruct (get_product_info x url) as [[i |] | e]; simpl;
        try (destruct (run l url) as [evs r]; simpl in * );
        intros H;
        repeat (destruct H as [H | H];
                [first [discriminate H | injection H as <-; exact Hs] |]);
        first [contradiction | apply IH; exact H].
    + destruct (run l url) as [evs r]. simpl in *.
      intros [H | H]; [discriminate H | apply IH; exact H].
    + intros [H | []]. discriminate H.
Qed.

Lemma extraction_only_after_support_example :
  supports_url Examples.finding_adapter Examples.url = Ok true.
Proof.
  apply (@extraction_only_after_support
           (registry [Examples.declining_adapter; Examples.finding_adapter])
           Examples.url Examples.finding_adapter).
  simpl. right. right. left. reflexivity.
Defined.

(** The isolation covers [get_product_info] only: when the adapters in
    front have given up and the next one raises in [supports_url], that
    exception leaves the factory, whatever follows in the registry. *)
Theorem supports_url_fault_leaves_factory
        (earlier later : list BaseAdapter) (a : BaseAdapter) (url : pystr) (e : exn) :
  Forall (Spec.gives_up url) earlier ->
  supports_url a url = Raise e ->
  AdapterFactory.get_product_info (registry (earlier ++ a :: later)) url = Raise e.
Proof.
  intros He Hs. unfold AdapterFactory.get_product_info. simpl.
  destruct (run_skips_prefix (a :: later) He) as [Hr _]. rewrite Hr.
  simpl. rewrite Hs. reflexivity.
Qed.

Lemma supports_url_fault_leaves_factory_example :
  AdapterFactory.get_product_info
    (registry ([Examples.raising_adapter] ++ Examples.faulty_supports_adapter
                 :: [Examples.finding_adapter]))
    Examples.url
  = Raise ValueError.
Proof.
  apply supports_url_fault_leaves_factory.
  - apply Forall_cons; [| apply Forall_nil].
    right. split; [reflexivity |]. right. eexists. reflexivity.
  - reflexivity.
Defined.

(** An adapter added with a priority other than 0 is the last resort:
    it is asked only when the adapters registered before have all been
    tried without a record, and an exception that leaves them leaves
    the factory as before. *)
Theorem add_adapter_back_tried_last
        (self : AdapterFactory.t) (adapter : BaseAdapter) (priority : Z) (url : pystr) :
  priority <> 0%Z ->
  AdapterFactory.get_product_info (AdapterFactory.add_adapter self adapter priority) url =
    match AdapterFactory.get_product_info self url with
    | Ok (Some info) => Ok (Some info)
    | Ok None => AdapterFactory.get_product_info (registry [adapter]) url
    | Raise e => Raise e
    end.
Proof.
  intros Hp. unfold AdapterFactory.add_adapter.
  destruct (Z.eqb_spec priority 0) as [E | _]; [contradiction |].
  unfold AdapterFactory.get_product_info. destruct self as [l]. simpl.
  induction l as [| x l IH]; [reflexivity |].
  cbn [app run].
  destruct (supports_url x url) as [[|] |]; [| | reflexivity].
  - destruct (get_product_info x url) as [[i |] | e]; [reflexivity | |];
      destruct (run (l ++ [adapter]) url) as [evs r];
      destruct (run l url) as [evs' r']; simpl in *; exact IH.
  - destruct (run (l ++ [adapter]) url) as [evs r];
      destruct (run l url) as [evs' r']; simpl in *; exact IH.
Qed.

Lemma add_adapter_back_tried_last_example :
  AdapterFactory.get_product_info
    (AdapterFactory.add_adapter (registry [Examples.empty_adapter])
       Examples.finding_adapter 1) Examples.url
  = Ok (Some Examples.widget).
Proof.
  refine (@add_adapter_back_tried_last (registry [Examples.empty_adapter])
            Examples.finding_adapter 1 Examples.url _).
  discriminate.
Defined.

Lemma last_skip (A : Type) (x : A) (l : list A) (d : A) :
  l <> [] -> last (x :: l) d = last l d.
Proof.
  destruct l as [| y l]; [congruence | reflexivity].
Qed.

Lemma run_trace_nonempty (l : list BaseAdapter) (url : pystr) : fst (run l url) <> [].
Proof.
  destruct l as [| x l]; simpl; [discriminate |].
  destruct (supports_url x url) as [[|] |]; simpl; try discriminate.
  - destruct (get_product_info x url) as [[i |] | e]; simpl; try discriminate;
      destruct (run l url); discriminate.
  - destruct (run l url); discriminate.
Qed.

(** Moves [last] past the events in front of the rest of the trace. *)
Ltac skip_events Hne :=
  repeat (rewrite last_skip; [| first [discriminate | exact Hne]]).

(** Every call ends the log in the same way: [None] after the error
    line written when no adapter could scrape, a record right after the
    info line that names the adapter it came from, an exception right
    after the call of [supports_url] that raised it. *)
Theorem factory_last_event (self : AdapterFactory.t) (url : pystr) :
  match AdapterFactory.get_product_info self url with
  | Ok None =>
      last (AdapterFactory.trace self url) (Log_info "") = Log_error
  | Ok (Some info) =>
      exists a, In a (AdapterFactory.adapters self)
                /\ Spec.finds url a info
                /\ last (AdapterFactory.trace self url) Log_error = Log_info (class_name a)
  | Raise e =>
      exists a, In a (AdapterFactory.adapters self)
                /\ supports_url a url = Raise e
                /\ last (AdapterFactory.trace self url) Log_error = Called_supports_url a
  end.
Proof.
  unfold AdapterFactory.get_product_info, AdapterFactory.trace.
  destruct self as [l]. simpl.
  induction l as [| x l IH]; [reflexivity |]. cbn [run].
  pose proof (run_trace_nonempty l url) as Hne.
  destruct (supports_url x url) as [[|] |] eqn:Hs.
  - destruct (get_product_info x url) as [[i |] | e] eqn:Hg.
    + exists x. split; [left; reflexivity |]. split; [split; assumption | reflexivity].
    + destruct (run l url) as [evs [[i |] | e]]; cbn [fst snd] in *.
      * destruct IH as [a [Ha [Hf Hl]]]. exists a. split; [right; exact Ha |].
        split; [exact Hf |]. skip_events Hne. exact Hl.
      * skip_events Hne. exact IH.
      * destruct IH as [a [Ha [Hf Hl]]]. exists a. split; [right; exact Ha |].
        split; [exact Hf |]. skip_events Hne. exact Hl.
    + destruct (run l url) as [evs [[i |] | e']]; cbn [fst snd] in *.
      * destruct IH as [a [Ha [Hf Hl]]]. exists a. split; [right; exact Ha |].
        split; [exact Hf |]. skip_events Hne. exact Hl.
      * skip_events Hne. exact IH.
      * destruct IH as [a [Ha [Hf Hl]]]. exists a. split; [right; exact Ha |].
        split; [exact Hf |]. skip_events Hne. exact Hl.
  - destruct (run l url) as [evs [[i |] | e]]; cbn [fst snd] in *.
    + destruct IH as [a [Ha [Hf Hl]]]. exists a. split; [right; exact Ha |].
      split; [exact Hf |]. skip_events Hne. exact Hl.
    + skip_events Hne. exact IH.
    + destruct IH as [a [Ha [Hf Hl]]]. exists a. split; [right; exact Ha |].
      split; [exact Hf |]. skip_events Hne. exact Hl.
  - exists x. split; [left; reflexivity |]. split; [exact Hs | reflexivity].
Qed.

End FactoryCalls.

(** ** The default registry on any page *)

Section DefaultRegistryMore.

Variable env : Env.

(** Wherever the structured-data adapter accepts a url, the HTML
    adapter accepts it too: the fallback is always there. *)
Theorem jsonld_support_implies_html_support (url : pystr) :
  JsonLdAdapter.supports_url env url = Ok true ->
  HtmlAdapter.supports_url env url = Ok true.
Proof.
  unfold JsonLdAdapter.supports_url, HtmlAdapter.supports_url.
  destruct (urlparse env url) as [parsed | e]; [| discriminate].
  destruct (hostname parsed) as [h | e]; [| discriminate].
  intros H. injection H as H. apply andb_prop in H. destruct H as [-> _]. reflexivity.
Qed.

Lemma default_registry_result (url : pystr) :
  AdapterFactory.get_product_info (AdapterFactory.__init__ env) url =
    match JsonLdAdapter.supports_url env url, JsonLdAdapter.get_product_info env url with
    | Ok true, Ok (Some info) => Ok (Some info)
    | _, _ =>
        match HtmlAdapter.supports_url env url with
        | Ok true => HtmlAdapter.get_product_info env url
        | _ => Ok None
        end
    end.
Proof.
  unfold AdapterFactory.get_product_info, AdapterFactory.__init__.
  cbn [AdapterFactory.adapters AdapterFactory.run JsonLdAdapter.adapter
       HtmlAdapter.adapter supports_url get_product_info class_name].
  destruct (jsonld_supports_url_total env url) as [b1 ->].
  destruct (html_supports_url_total env url) as [b2 ->].
  destruct (jsonld_get_product_info_total env url) as [r1 ->].
  destruct (html_get_product_info_total env url) as [r2 ->].
  destruct b1, b2, r1 as [i1 |], r2 as [i2 |]; reflexivity.
Qed.

(** On a url the structured-data adapter declines (no known site in the
    host name), every record of the default registry is the HTML
    adapter's: its name is trimmed and at least 4 characters long and
    its price lies in [0.01, 999999], whatever structured data the page
    embeds. *)
Theorem unknown_site_record_validated (url : pystr) (info : ProductInfo) :
  JsonLdAdapter.supports_url env url = Ok false ->
  AdapterFactory.get_product_info (AdapterFactory.__init__ env) url = Ok (Some info) ->
  Spec.name_ok (name info) /\ Spec.price_in_range (price info).
Proof.
  intros Hs. rewrite default_registry_result, Hs.
  destruct (HtmlAdapter.supports_url env url) as [[|] |]; try discriminate.
  intros H. destruct (html_found_inv _ _ H) as [soup [Hn Hp]]. split.
  - eapply first_name_ok, Hn.
  - apply reasonable_in_range. eapply first_price_reasonable, Hp.
Qed.

(** When both requests are answered with a 4xx or 5xx status, the
    factory returns [None]: the body of an error page is never
    searched. *)
Theorem http_error_yields_none (url : pystr) (r1 r2 : Response) :
  jsonld_session_get env url = Ok r1 -> Spec.http_error r1 ->
  html_session_get env url = Ok r2 -> Spec.http_error r2 ->
  AdapterFactory.get_product_info (AdapterFactory.__init__ env) url = Ok None.
Proof.
  intros H1 [L1 U1] H2 [L2 U2].
  assert (E1 : raise_for_status r1 = Raise RequestException).
  { unfold raise_for_status. apply Z.leb_le in L1. apply Z.ltb_lt in U1.
    rewrite L1, U1. reflexivity. }
  assert (E2 : raise_for_status r2 = Raise RequestException).
  { unfold raise_for_status. apply Z.leb_le in L2. apply Z.ltb_lt in U2.
    rewrite L2, U2. reflexivity. }
  rewrite default_registry_result.
  unfold JsonLdAdapter.get_product_info, JsonLdAdapter.scrape,
    HtmlAdapter.get_product_info, HtmlAdapter.scrape.
  rewrite H1, H2. cbn [bind]. rewrite E1, E2. cbn [bind].
  destruct (JsonLdAdapter.supports_url env url) as [[|] |];
    destruct (HtmlAdapter.supports_url env url) as [[|] |]; reflexivity.
Qed.

(** Inside the structured-data adapter the JSON-LD branch decides
    whenever it does not return [None]: its record is the adapter's
    answer, and an exception it raises makes the adapter return [None]
    without the microdata of the page being looked at. *)
Theorem jsonld_branch_decides
        (url : pystr) (response : Response) (data : list (pystr * list pyval)) :
  jsonld_session_get env url = Ok response ->
  raise_for_status response = Ok tt ->
  extruct_extract env (text response) url = Ok data ->
  JsonLdAdapter._extract_from_jsonld (py_repr env)
    (JsonLdAdapter.syntax_items data (lit "json-ld")) <> Ok None ->
  JsonLdAdapter.get_product_info env url =
    match JsonLdAdapter._extract_from_jsonld (py_repr env)
            (JsonLdAdapter.syntax_items data (lit "json-ld")) with
    | Ok (Some info) => Ok (Some info)
    | _ => Ok None
    end.
Proof.
  intros Hg Hr Hx Hne. unfold JsonLdAdapter.get_product_info, JsonLdAdapter.scrape.
  rewrite Hg. cbn [bind]. rewrite Hr. cbn [bind]. rewrite Hx. cbn [bind].
  destruct (JsonLdAdapter._extract_from_jsonld _ _) as [[info |] | e];
    [reflexivity | congruence | reflexivity].
Qed.

End DefaultRegistryMore.

Lemma unknown_site_record_validated_example :
  Spec.name_ok (lit "Widget Pro") /\ Spec.price_in_range (Float.literal (4999 # 100)).
Proof.
  apply (@unknown_site_record_validated Examples.small_shop_env Examples.url
           {| name := lit "Widget Pro"; price := Float.literal (4999 # 100) |}).
  - vm_compute. reflexivity.
  - vm_compute. reflexivity.
Defined.

Lemma jsonld_support_implies_html_support_example :
  HtmlAdapter.supports_url (Examples.page_env [] Examples.empty_soup) Examples.url = Ok true.
Proof.
  apply jsonld_support_implies_html_support. vm_compute. reflexivity.
Defined.

Lemma http_error_yields_none_example :
  AdapterFactory.get_product_info (AdapterFactory.__init__ Examples.not_found_env)
    Examples.url = Ok None.
Proof.
  apply (@http_error_yields_none Examples.not_found_env Examples.url
           Examples.not_found_response Examples.not_found_response).
  - reflexivity.
  - split; vm_compute; [discriminate | reflexivity].
  - reflexivity.
  - split; vm_compute; [discriminate | reflexivity].
Defined.

Lemma jsonld_branch_decides_example :
  JsonLdAdapter.get_product_info
    (Examples.page_env Examples.broken_type_data Examples.empty_soup) Examples.url
  = Ok None
  /\ JsonLdAdapter._extract_from_microdata Py.repr_atoms
       (JsonLdAdapter.syntax_items Examples.broken_type_data (lit "microdata"))
     = Ok (Some {| name := lit "Widget Pro"; price := Fin 25 |}).
Proof.
  split; [| vm_compute; reflexivity].
  refine (@jsonld_branch_decides
            (Examples.page_env Examples.broken_type_data Examples.empty_soup)
            Examples.url Examples.ok_response Examples.broken_type_data _ _ _ _).
  - reflexivity.
  - reflexivity.
  - reflexivity.
  - vm_compute. discriminate.
Defined.

(** ** The structured-data adapter: edges *)

Section StructuredEdges.

(** The RDFa branch yields nothing, whatever it is given. *)
Theorem rdfa_never_finds (rdfa_data : list pyval) :
  JsonLdAdapter._extract_from_rdfa rdfa_data = Ok None.
Proof.
  induction rdfa_data as [| item rest IH]; [reflexivity |].
  cbn [JsonLdAdapter._extract_from_rdfa].
  destruct item; try exact IH. destruct (existsb _ _); exact IH.
Qed.

Lemma of_str_raises_value_error (s : pystr) (e : exn) :
  Float.of_str s = Raise e -> e = ValueError.
Proof.
  unfold Float.of_str.
  destruct (Float.drop_underscores None _) as [t |]; [| congruence].
  destruct (Float.parse_sign t) as [neg body].
  destruct (Float.parse_decimal body); [discriminate |].
  destruct (Float.parse_inf_nan neg body); [discriminate | congruence].
Qed.

Lemma float_raises (v : pyval) (e : exn) :
  Py.float v = Raise e -> e = ValueError \/ e = TypeError \/ e = OverflowError.
Proof.
  destruct v as [| b | z | f | s | l | d]; simpl; try discriminate;
    try (intros H; injection H as <-; auto).
  - unfold Float.of_int. destruct (Float.binary64 _); try discriminate;
      intros H; injection H as <-; auto.
  - intros H. apply of_str_raises_value_error in H. auto.
Qed.

Lemma scan_offers_raises (offers : list pyval) (e : exn) :
  JsonLdAdapter.scan_offers offers = Raise e -> e = OverflowError.
Proof.
  induction offers as [| offer rest IH]; [discriminate |].
  destruct offer as [| b | z | f | s | l | d]; try exact IH.
  rewrite scan_offers_dict. cbv zeta.
  destruct (Py.is_not_None _); [| exact IH].
  destruct (Py.float _) as [f | e'] eqn:Hf; [discriminate |].
  destruct (float_raises _ Hf) as [-> | [-> | ->]]; cbn [is_value_or_type_error];
    [exact IH | exact IH |]. intros H. injection H as <-. reflexivity.
Qed.

(** The only exception that leaves [_extract_price_from_offers] is the
    [OverflowError] of [float] on an integer too large for a float:
    texts that do not convert and values of other types are passed
    over. *)
Theorem price_extraction_raises_only_overflow (offers : pyval) (e : exn) :
  JsonLdAdapter._extract_price_from_offers offers = Raise e -> e = OverflowError.
Proof.
  unfold JsonLdAdapter._extract_price_from_offers.
  destruct (negb (Py.truthy offers)); [discriminate |].
  destruct offers as [| b | z | f | s | l | d]; try discriminate;
    apply scan_offers_raises.
Qed.

Lemma price_extraction_raises_only_overflow_example :
  JsonLdAdapter._extract_price_from_offers
    (VList [Examples.price_offer (VStr (lit "call us"));
            Examples.price_offer (VInt (10 ^ 400));
            Examples.price_offer (VStr (lit "25.00"))])
  = Raise OverflowError.
Proof.
  destruct (JsonLdAdapter._extract_price_from_offers
              (VList [Examples.price_offer (VStr (lit "call us"));
                      Examples.price_offer (VInt (10 ^ 400));
                      Examples.price_offer (VStr (lit "25.00"))])) as [r | e] eqn:E.
  - vm_compute in E. discriminate E.
  - rewrite (price_extraction_raises_only_overflow _ E). reflexivity.
Defined.

(** When an offer has a [price] key, the other keys of the offer play
    no part: the result is that of the offer reduced to its [price]
    entry.  A [price] that is [None] or does not convert is not
    replaced by [lowPrice] or [highPrice]. *)
Theorem price_key_shadows_other_keys (d : list (pystr * pyval)) (v : pyval) :
  Py.lookup (lit "price") d = Some v ->
  JsonLdAdapter._extract_price_from_offers (VDict d)
  = JsonLdAdapter._extract_price_from_offers (VDict [(lit "price", v)]).
Proof.
  intros H. unfold JsonLdAdapter._extract_price_from_offers.
  destruct d as [| kv d]; [discriminate H |].
  cbn [Py.truthy negb]. rewrite !scan_offers_dict.
  assert (E : JsonLdAdapter._get_nested_value (VDict (kv :: d)) JsonLdAdapter.offer_price_keys
              = JsonLdAdapter._get_nested_value (VDict [(lit "price", v)])
                  JsonLdAdapter.offer_price_keys).
  { unfold JsonLdAdapter._get_nested_value, JsonLdAdapter.offer_price_keys.
    cbn [JsonLdAdapter.get_nested_keys].
    replace (contains (lit "/") (lit "price")) with false by reflexivity.
    rewrite H.
    replace (Py.lookup (lit "price") [(lit "price", v)]) with (Some v) by reflexivity.
    reflexivity. }
  rewrite E. reflexivity.
Qed.

Lemma price_key_shadows_other_keys_example :
  JsonLdAdapter._extract_price_from_offers
    (VDict [(lit "lowPrice", VStr (lit "5.00")); (lit "price", VNone)])
  = Ok None.
Proof.
  refine (@price_key_shadows_other_keys
            [(lit "lowPrice", VStr (lit "5.00")); (lit "price", VNone)] VNone _).
  reflexivity.
Defined.

End StructuredEdges.

(** ** Price texts *)

(** Settles a goal about one digit by trying the ten of them. *)
Ltac try_each_digit H :=
  apply digit_cases in H; simpl in H;
  repeat (destruct H as [<- | H]; [reflexivity |]); contradiction.

Section PriceTexts.

Lemma digits_str_trimmed (ds : pystr) : Spec.digits ds -> strip ds = ds.
Proof.
  intros H. apply trimmed_iff. split.
  - destruct H as [| c t Hc _]; [exact I | apply digit_not_space, Hc].
  - apply Forall_rev in H.
    destruct H as [| c t Hc _]; [exact I | apply digit_not_space, Hc].
Qed.

Lemma remove_dollar_digits (ds : pystr) : Spec.digits ds -> remove_char 36 ds = ds.
Proof.
  induction 1 as [| c t Hc _ IH]; simpl; [reflexivity |].
  assert (E : char_eqb c 36 = false) by (try_each_digit Hc).
  rewrite E. simpl. rewrite IH. reflexivity.
Qed.

(** The JSON-LD cleaning on [$ digits , digits]: dollar sign and comma
    go, and the price is the integer the digits write together, with
    no range check. *)
Theorem jsonld_dollar_comma_price (a b : pystr) :
  a <> [] -> Spec.digits a -> Spec.digits b ->
  JsonLdAdapter._extract_price_from_offers
    (VDict [(lit "price", VStr (36%N :: a ++ 44%N :: b))])
  = Ok (Some (Float.binary64 (inject_Z (Float.digits_value (a ++ b))))).
Proof.
  intros Hne Ha Hb.
  assert (Hab : a ++ b <> []) by (destruct a; [congruence | discriminate]).
  assert (Hd : Spec.digits (a ++ b)) by (apply Forall_app; split; assumption).
  unfold JsonLdAdapter._extract_price_from_offers. cbn [Py.truthy negb].
  rewrite scan_offers_dict.
  replace (JsonLdAdapter._get_nested_value
             (VDict [(lit "price", VStr (36%N :: a ++ 44%N :: b))])
             JsonLdAdapter.offer_price_keys)
    with (VStr (36%N :: a ++ 44%N :: b)) by reflexivity.
  cbv zeta. cbn [Py.is_not_None JsonLdAdapter.clean_price].
  replace (remove_char 36 (36%N :: a ++ 44%N :: b)) with (a ++ 44%N :: b).
  2:{ unfold remove_char. cbn [filter char_eqb N.eqb Pos.eqb negb].
      fold (remove_char 36 (a ++ 44%N :: b)). unfold remove_char.
      rewrite filter_app. cbn [filter char_eqb N.eqb Pos.eqb negb].
      fold (remove_char 36 a). fold (remove_char 36 b).
      rewrite (remove_dollar_digits Ha), (remove_dollar_digits Hb). reflexivity. }
  rewrite (remove_comma_joined Ha Hb), (digits_str_trimmed Hd).
  cbn [Py.float]. rewrite (of_str_digits Hab Hd). reflexivity.
Qed.

Lemma jsonld_dollar_comma_price_example :
  JsonLdAdapter._extract_price_from_offers (VDict [(lit "price", VStr (lit "$1,299"))])
  = Ok (Some (Fin 1299)).
Proof.
  refine (@jsonld_dollar_comma_price (lit "1") (lit "299") _ _ _).
  - discriminate.
  - repeat (apply Forall_cons; [reflexivity |]). apply Forall_nil.
  - repeat (apply Forall_cons; [reflexivity |]). apply Forall_nil.
Defined.



(** A price next to a currency symbol wins over any other number of the
    text: when the first pattern (symbol, then number) gives a
    reasonable price, that is the result, whatever bare numbers come
    before it. *)
Theorem currency_prefixed_price_first (text : pystr) (p : pyfloat) :
  HtmlAdapter.first_price_of_matches (Re.findall HtmlAdapter.currency_before text)
    = Ok (Some p) ->
  HtmlAdapter._parse_price_text text HtmlAdapter.price_patterns = Ok (Some p).
Proof.
  intros H. unfold HtmlAdapter._parse_price_text.
  destruct text as [| c t]; [vm_compute in H; discriminate H |].
  unfold HtmlAdapter.price_patterns. cbn [HtmlAdapter.first_price_of_patterns].
  rewrite H. reflexivity.
Qed.

Lemma currency_prefixed_price_first_example :
  HtmlAdapter._parse_price_text (lit "was 100, now $80") HtmlAdapter.price_patterns
  = Ok (Some (Fin 80)).
Proof.
  apply currency_prefixed_price_first. vm_compute. reflexivity.
Defined.

Lemma first_price_first_valid
      (soup : Soup) (before after : list pystr) (selector : pystr) (p : pyfloat) :
  Forall (Spec.no_price soup) before ->
  HtmlAdapter.price_candidate soup selector = Ok (Some p) ->
  HtmlAdapter.first_price soup (before ++ selector :: after) = Some p.
Proof.
  intros Hb Hc. induction Hb as [| s before [Hs | [e Hs]] _ IH]; simpl.
  - rewrite Hc. reflexivity.
  - rewrite Hs. exact IH.
  - rewrite Hs. exact IH.
Qed.

(** The price selectors are tried in their order in the source: the
    first one that yields a reasonable price decides, and a selector
    that matches nothing, holds no reasonable number or raises does not
    stop the search. *)
Theorem price_selector_priority
        (soup : Soup) (url : pystr) (before after : list pystr) (selector : pystr)
        (p : pyfloat) :
  HtmlAdapter.price_selectors = before ++ selector :: after ->
  Forall (Spec.no_price soup) before ->
  HtmlAdapter.price_candidate soup selector = Ok (Some p) ->
  HtmlAdapter._extract_price soup url = Some p.
Proof.
  intros Hsplit Hb Hc. unfold HtmlAdapter._extract_price. rewrite Hsplit.
  apply first_price_first_valid; assumption.
Qed.

Lemma price_selector_priority_example :
  HtmlAdapter._extract_price Examples.two_prices_soup Examples.url = Some (Fin 5).
Proof.
  refine (@price_selector_priority Examples.two_prices_soup Examples.url
            (firstn 2 HtmlAdapter.price_selectors) (skipn 3 HtmlAdapter.price_selectors)
            (HtmlAdapter.attr_selector "" "id" "*=" "price") (Fin 5) _ _ _).
  - reflexivity.
  - repeat (apply Forall_cons; [left; vm_compute; reflexivity |]). apply Forall_nil.
  - vm_compute. reflexivity.
Defined.

End PriceTexts.

(** ** Dollar signs and decimal points *)

Section DollarTexts.

Lemma lstrip_keeps_last (space : pychar -> bool) (w : pystr) (c : pychar) :
  space c = false -> exists u, lstrip_by space (w ++ [c]) = u ++ [c].
Proof.
  intros Hc. induction w as [| x w [u IH]]; simpl.
  - rewrite Hc. exists []. reflexivity.
  - destruct (space x).
    + exists u. exact IH.
    + exists (x :: w). reflexivity.
Qed.

Lemma strip_keeps_head (space : pychar -> bool) (c : pychar) (s : pystr) :
  space c = false -> exists t, strip_by space (c :: s) = c :: t.
Proof.
  intros Hc. unfold strip_by. cbn [lstrip_by]. rewrite Hc. unfold rstrip_by.
  cbn [rev]. destruct (lstrip_keeps_last space (rev s) c Hc) as [u ->].
  exists (rev u). rewrite rev_app_distr. reflexivity.
Qed.

(** [float] converts no text that starts with a dollar sign. *)
Lemma of_str_dollar (s : pystr) : Float.of_str (36%N :: s) = Raise ValueError.
Proof.
  unfold Float.of_str.
  assert (E : exists t, strip_by Float.is_space (36%N :: s) = 36%N :: t)
    by (apply strip_keeps_head; reflexivity).
  destruct E as [t ->].
  cbn [Float.drop_underscores N.eqb Pos.eqb andb].
  destruct (Float.drop_underscores _ t) as [t' |]; reflexivity.
Qed.

(** Microdata prices are converted as they are: an offer whose price
    text starts with a dollar sign is passed over, the sign that the
    JSON-LD branch removes making [float] fail here. *)
Theorem microdata_dollar_price_skipped
        (repr : pyval -> pystr) (name : pyval) (od : list (pystr * pyval))
        (s : pystr) (rest : list pyval) :
  JsonLdAdapter._get_nested_value (Py.dict_get od (lit "properties") (VDict []))
    [lit "price"; lit "lowPrice"] = VStr (36%N :: s) ->
  JsonLdAdapter.scan_microdata_offers repr name (VDict od :: rest)
  = JsonLdAdapter.scan_microdata_offers repr name rest.
Proof.
  intros H. cbn [JsonLdAdapter.scan_microdata_offers]. rewrite H.
  cbn [Py.is_not_None andb Py.float]. rewrite of_str_dollar.
  cbn [is_value_or_type_error]. destruct (Py.truthy name); reflexivity.
Qed.

Lemma microdata_dollar_price_skipped_example :
  JsonLdAdapter.scan_microdata_offers Py.repr_atoms (VStr (lit "Widget Pro"))
    [Examples.microdata_priced_offer "$25.00"; Examples.microdata_priced_offer "20.00"]
  = Ok (Some {| name := lit "Widget Pro"; price := Fin 20 |}).
Proof.
  etransitivity.
  - refine (@microdata_dollar_price_skipped Py.repr_atoms (VStr (lit "Widget Pro"))
              [ (lit "type", VStr (lit "http://schema.org/Offer"));
                (lit "properties", VDict [ (lit "price", VStr (lit "$25.00")) ]) ]
              (lit "25.00") [Examples.microdata_priced_offer "20.00"] _).
    reflexivity.
  - vm_compute. reflexivity.
Defined.

End DollarTexts.

Section DecimalTexts.

(** The separator of a joined text: a comma or a dot. *)
Variable sep : pychar.
Hypothesis sep_ok : HtmlAdapter.comma_or_dot sep = true.

Lemma sep_not_digit : is_digit sep = false.
Proof.
  unfold HtmlAdapter.comma_or_dot in sep_ok. apply orb_prop in sep_ok.
  destruct sep_ok as [H | H]; apply N.eqb_eq in H; rewrite H; reflexivity.
Qed.

Lemma sep_not_currency : HtmlAdapter.currency sep = false.
Proof.
  unfold HtmlAdapter.comma_or_dot in sep_ok. apply orb_prop in sep_ok.
  destruct sep_ok as [H | H]; apply N.eqb_eq in H; rewrite H; reflexivity.
Qed.

Lemma number_matches_joined (A : Type) (k : pystr -> option A) (a b : pystr) (r : A) :
  a <> [] -> Spec.digits a -> Spec.digits b ->
  k [] = Some r ->
  Re.match_items HtmlAdapter.number k (a ++ sep :: b) = Some r.
Proof.
  intros Hne Ha Hb Hk. destruct Ha as [| x a' Hx Ha']; [congruence |].
  unfold HtmlAdapter.number. cbn [Re.match_items Re.q Re.cls Re.plus app].
  rewrite Hx. apply star_greedy; [exact Ha' | exact sep_not_digit |].
  cbn [Re.match_items Re.q Re.cls Re.opt Re.star_of]. rewrite sep_ok.
  assert (E : Re.star is_digit
                (Re.match_items [Re.opt HtmlAdapter.dot; Re.star_of is_digit] k) b
              = Some r).
  { rewrite <- (app_nil_r b). apply star_greedy; [exact Hb | exact I |].
    simpl. exact Hk. }
  cbn [Re.match_items Re.q Re.cls Re.opt Re.star_of] in E. rewrite E. reflexivity.
Qed.

Lemma joined_free_of_currency (a b : pystr) :
  Spec.digits a -> Spec.digits b -> Spec.currency_free (a ++ sep :: b).
Proof.
  intros Ha Hb. apply Forall_app. split; [| apply Forall_cons; [exact sep_not_currency |]].
  - eapply Forall_impl; [| exact Ha]. intros c Hc. apply digit_not_currency, Hc.
  - eapply Forall_impl; [| exact Hb]. intros c Hc. apply digit_not_currency, Hc.
Qed.

Lemma bare_number_joined (a b : pystr) :
  a <> [] -> Spec.digits a -> Spec.digits b ->
  Re.findall HtmlAdapter.bare_number (a ++ sep :: b) = [a ++ sep :: b].
Proof.
  intros Hne Ha Hb.
  assert (Hm : Re.match_at HtmlAdapter.bare_number (a ++ sep :: b)
               = Some (a ++ sep :: b, [])).
  { unfold Re.match_at.
    cbn [HtmlAdapter.bare_number Re.prefix Re.group Re.suffix].
    cbn [Re.match_items]. apply number_matches_joined; try assumption.
    cbn [Re.match_items List.length]. rewrite Nat.sub_0_r, firstn_all. reflexivity. }
  unfold Re.findall. destruct a as [| x a']; [congruence |].
  cbn [app] in *. cbn [Re.findall_from]. rewrite Hm.
  cbn [List.length]. rewrite Nat.sub_0_r. cbn [Nat.sub]. rewrite Nat.sub_0_r.
  rewrite findall_from_skip_all; reflexivity.
Qed.

(** On [$ digits sep digits] the pattern with the symbol in front finds
    the number, the pattern with the symbol behind finds nothing, and
    the bare pattern finds the same number again. *)
Lemma dollar_joined_matches (a b : pystr) :
  a <> [] -> Spec.digits a -> Spec.digits b ->
  Re.findall HtmlAdapter.currency_before (36%N :: a ++ sep :: b) = [a ++ sep :: b]
  /\ Re.findall HtmlAdapter.currency_after (36%N :: a ++ sep :: b) = []
  /\ Re.findall HtmlAdapter.bare_number (36%N :: a ++ sep :: b) = [a ++ sep :: b].
Proof.
  intros Hne Ha Hb. split; [| split].
  - unfold Re.findall. cbn [Re.findall_from].
    assert (Hm : Re.match_at HtmlAdapter.currency_before (36%N :: a ++ sep :: b)
                 = Some (a ++ sep :: b, [])).
    { unfold Re.match_at.
      cbn [HtmlAdapter.currency_before Re.prefix Re.group Re.suffix].
      cbn [Re.match_items Re.q Re.cls Re.one Re.star_of].
      replace (HtmlAdapter.currency 36) with true by reflexivity.
      destruct Ha as [| x a' Hx Ha']; [congruence |].
      cbn [app Re.star]. rewrite (digit_not_space _ Hx).
      change (x :: a' ++ sep :: b) with ((x :: a') ++ sep :: b).
      apply number_matches_joined;
        [discriminate | apply Forall_cons; assumption | assumption |].
      cbn [List.length]. rewrite Nat.sub_0_r, firstn_all. reflexivity. }
    rewrite Hm. cbn [List.length]. rewrite Nat.sub_0_r. cbn [Nat.sub]. rewrite Nat.sub_0_r.
    rewrite findall_from_skip_all; reflexivity.
  - unfold Re.findall. cbn [Re.findall_from].
    replace (Re.match_at HtmlAdapter.currency_after (36%N :: a ++ sep :: b))
      with (@None (pystr * pystr)) by reflexivity.
    apply (currency_last_none (joined_free_of_currency Ha Hb)).
  - unfold Re.findall. cbn [Re.findall_from].
    replace (Re.match_at HtmlAdapter.bare_number (36%N :: a ++ sep :: b))
      with (@None (pystr * pystr)) by reflexivity.
    apply (bare_number_joined Hne Ha Hb).
Qed.

End DecimalTexts.

Section DollarDecimal.

Lemma span_digits_then (a rest : pystr) :
  Spec.digits a ->
  match rest with [] => True | c :: _ => is_digit c = false end ->
  span is_digit (a ++ rest) = (a, rest).
Proof.
  intros Ha Hr. induction Ha as [| c t Hc _ IH]; simpl.
  - destruct rest as [| c t]; [reflexivity |]. simpl. rewrite Hr. reflexivity.
  - rewrite Hc, IH. reflexivity.
Qed.

Lemma no_underscore_kept (s : pystr) (prev : option pychar) :
  Forall (fun c => N.eqb c 95 = false) s ->
  match prev with Some p => N.eqb p 95 | None => false end = false ->
  Float.drop_underscores prev s = Some s.
Proof.
  intros H. revert prev. induction H as [| c t Hc _ IH]; intros prev Hp; simpl.
  - rewrite Hp. reflexivity.
  - rewrite Hc, Hp. simpl. rewrite IH; [reflexivity | exact Hc].
Qed.

Lemma no_space_fixed (space : pychar -> bool) (s : pystr) :
  Forall (fun c => space c = false) s -> strip_by space s = s.
Proof.
  intros H. apply strip_by_fixed_iff. split.
  - destruct H as [| c t Hc _]; [exact I | exact Hc].
  - apply Forall_rev in H. destruct H as [| c t Hc _]; [exact I | exact Hc].
Qed.

(** [float] of [digits . digits] is the decimal number written. *)
Lemma of_str_decimal (a b : pystr) :
  a <> [] -> b <> [] -> Spec.digits a -> Spec.digits b ->
  Float.of_str (a ++ 46%N :: b)
  = Ok (Float.binary64
          (Float.digits_value (a ++ b) # Z.to_pos (10 ^ Z.of_nat (List.length b)))).
Proof.
  intros Hna Hnb Ha Hb. unfold Float.of_str.
  rewrite no_space_fixed.
  2:{ apply Forall_app. split; [| apply Forall_cons; [reflexivity |]];
      (eapply Forall_impl; [| eassumption]); intros c Hc;
      apply digit_not_float_space, Hc. }
  rewrite (@no_underscore_kept _ None).
  2:{ apply Forall_app. split; [| apply Forall_cons; [reflexivity |]];
      (eapply Forall_impl; [| eassumption]); intros c Hc;
      apply digit_not_underscore, Hc. }
  2:{ reflexivity. }
  assert (Hs : Float.parse_sign (a ++ 46%N :: b) = (false, a ++ 46%N :: b)).
  { destruct Ha as [| c t Hc _]; [congruence |]. cbn [app Float.parse_sign].
    destruct (digit_not_sign _ Hc) as [-> ->]. reflexivity. }
  rewrite Hs. unfold Float.parse_decimal.
  rewrite (span_digits_then (46%N :: b) Ha eq_refl).
  cbn [N.eqb Pos.eqb]. rewrite (span_digits Hb).
  destruct (a ++ b) as [| c t] eqn:Eab; [destruct a; [congruence | discriminate Eab] |].
  rewrite <- Eab. cbn [Float.parse_exponent].
  destruct b as [| y b']; [congruence |].
  replace (0 - Z.of_nat (List.length (y :: b')))%Z
    with (Z.neg (Pos.of_succ_nat (List.length b'))) by (cbn [List.length]; lia).
  cbn [Z.leb Z.compare Z.opp].
  replace (Z.pos (Pos.of_succ_nat (List.length b')))
    with (Z.of_nat (List.length (y :: b'))) by (cbn [List.length]; lia).
  reflexivity.
Qed.

(** The heuristic parser on [$ digits . digits]: the price is the
    decimal number written, kept when it lies in [0.01, 999999] and
    rejected otherwise. *)
Theorem dollar_decimal_price (a b : pystr) :
  a <> [] -> b <> [] -> Spec.digits a -> Spec.digits b ->
  let price :=
    Float.binary64
      (Float.digits_value (a ++ b) # Z.to_pos (10 ^ Z.of_nat (List.length b))) in
  HtmlAdapter._parse_price_text (36%N :: a ++ 46%N :: b) HtmlAdapter.price_patterns
  = Ok (if HtmlAdapter.reasonable price then Some price else None).
Proof.
  intros Hna Hnb Ha Hb price.
  assert (H : Re.findall HtmlAdapter.currency_before (36%N :: a ++ 46%N :: b)
               = [a ++ 46%N :: b]
             /\ Re.findall HtmlAdapter.currency_after (36%N :: a ++ 46%N :: b) = []
             /\ Re.findall HtmlAdapter.bare_number (36%N :: a ++ 46%N :: b)
                = [a ++ 46%N :: b])
    by exact (@dollar_joined_matches 46%N eq_refl a b Hna Ha Hb).
  destruct H as [H1 [H2 H3]].
  unfold HtmlAdapter._parse_price_text, HtmlAdapter.price_patterns.
  cbn [HtmlAdapter.first_price_of_patterns].
  rewrite H1, H2, H3.
  assert (Hc : remove_char 44 (a ++ 46%N :: b) = a ++ 46%N :: b).
  { unfold remove_char. rewrite filter_app. cbn [filter char_eqb N.eqb Pos.eqb negb].
    fold (remove_char 44 a). fold (remove_char 44 b).
    rewrite (remove_comma_digits Ha), (remove_comma_digits Hb). reflexivity. }
  cbn [HtmlAdapter.first_price_of_matches bind].
  rewrite Hc, (of_str_decimal Hna Hnb Ha Hb). fold price.
  destruct (HtmlAdapter.reasonable price); reflexivity.
Qed.

Lemma dollar_decimal_price_example :
  HtmlAdapter._parse_price_text (lit "$49.99") HtmlAdapter.price_patterns
  = Ok (Some (Float.literal (4999 # 100))).
Proof.
  refine (@dollar_decimal_price (lit "49") (lit "99") _ _ _ _).
  - discriminate.
  - discriminate.
  - repeat (apply Forall_cons; [reflexivity |]). apply Forall_nil.
  - repeat (apply Forall_cons; [reflexivity |]). apply Forall_nil.
Defined.

End DollarDecimal.

(** ** The price drop percentage *)

Section PriceDrop.

Lemma binary64_zero (q : Q) : Qnum q = 0%Z -> Float.binary64 q = Fin 0.
Proof. intros H. unfold Float.binary64. rewrite H. reflexivity. Qed.

Lemma round_half_even_nonneg (n d : Z) :
  (0 <= n)%Z -> (0 < d)%Z -> (0 <= Float.round_half_even n d)%Z.
Proof.
  intros Hn Hd. unfold Float.round_half_even.
  assert (H : (0 <= n / d)%Z) by (apply Z.div_pos; assumption).
  destruct (2 * (n mod d) <? d)%Z; [exact H |].
  destruct (d <? 2 * (n mod d))%Z; [lia |].
  destruct (Z.even (n / d)); lia.
Qed.

Lemma pow2_pos (p : Z) : (0 < 2 ^ p)%Z \/ (p < 0)%Z.
Proof.
  destruct (Z.le_gt_cases 0 p) as [H | H]; [left | right; lia].
  apply Z.pow_pos_nonneg; lia.
Qed.

(** The mantissa [binary64] rounds to is not negative. *)
Lemma mantissa_nonneg (q : Q) (p : Z) :
  (0 <= (if (0 <=? p)%Z
         then Float.round_half_even (Z.abs (Qnum q)) (Zpos (Qden q) * 2 ^ p)
         else Float.round_half_even (Z.abs (Qnum q) * 2 ^ (- p)) (Zpos (Qden q))))%Z.
Proof.
  destruct (Z.leb_spec 0 p) as [Hp | Hp].
  - apply round_half_even_nonneg; [lia |].
    assert (0 < 2 ^ p)%Z by (apply Z.pow_pos_nonneg; lia). nia.
  - apply round_half_even_nonneg; [| lia].
    assert (0 < 2 ^ (- p))%Z by (apply Z.pow_pos_nonneg; lia). nia.
Qed.

Lemma scaled_sign (s p : Z) :
  ((0 <= s)%Z -> (0 <= Float.scaled s p)%Q)
  /\ ((s <= 0)%Z -> (Float.scaled s p <= 0)%Q).
Proof.
  unfold Float.scaled. destruct (Z.leb_spec 0 p) as [Hp | Hp].
  - assert (0 < 2 ^ p)%Z by (apply Z.pow_pos_nonneg; lia).
    split; intros Hs; unfold Qle; simpl; nia.
  - split; intros Hs; rewrite Qred_correct; unfold Qle; simpl; lia.
Qed.

(** Rounding keeps the sign. *)
Lemma binary64_sign (q : Q) :
  ((0 <= Qnum q)%Z -> Spec.float_nonneg (Float.binary64 q))
  /\ ((Qnum q <= 0)%Z -> Spec.float_nonpos (Float.binary64 q)).
Proof.
  unfold Float.binary64.
  destruct (Z.eqb_spec (Z.abs (Qnum q)) 0) as [E | E].
  - split; intros _; simpl; unfold Qle; simpl; lia.
  - set (p := Z.max (Float.floor_log2 (Z.abs (Qnum q)) (Zpos (Qden q)) - 52) (-1074)).
    pose proof (mantissa_nonneg q p) as Hm.
    set (m := if (0 <=? p)%Z
              then Float.round_half_even (Z.abs (Qnum q)) (Zpos (Qden q) * 2 ^ p)
              else Float.round_half_even (Z.abs (Qnum q) * 2 ^ (- p)) (Zpos (Qden q))) in *.
    destruct ((0 <=? p)%Z && (2 ^ 1024 <=? m * 2 ^ p)%Z).
    + destruct (Z.ltb_spec (Qnum q) 0); split; intros H'; simpl; try exact I; lia.
    + split; intros H'; simpl; apply scaled_sign.
      * assert (Z.sgn (Qnum q) = 1%Z) by (apply Z.sgn_pos; lia). nia.
      * assert (Z.sgn (Qnum q) = (-1)%Z) by (apply Z.sgn_neg; lia). nia.
Qed.

Lemma positive_not_below_zero (a : Q) :
  (0 < a)%Q -> Float.leb (Fin a) (Fin 0) = false /\ Float.is_zero (Fin a) = false.
Proof.
  intros H. simpl. split.
  - destruct (Qle_bool a 0) eqn:E; [| reflexivity].
    apply Qle_bool_iff in E. exfalso. apply (Qlt_irrefl 0).
    eapply Qlt_le_trans; eassumption.
  - destruct (Qeq_bool a 0) eqn:E; [| reflexivity].
    apply Qeq_bool_iff in E. rewrite E in H. exfalso. apply (Qlt_irrefl 0), H.
Qed.

(** No arguments make [calculate_price_drop_percentage] raise: the
    division is reached only with an average that is not zero, and an
    average that is zero or negative gives 0.0. *)
Theorem price_drop_never_raises (current_price average_price : pyfloat) :
  exists r,
    EmailTasks.calculate_price_drop_percentage current_price average_price = Ok r
    /\ (Float.leb average_price (Fin 0) = true -> r = Fin 0).
Proof.
  unfold EmailTasks.calculate_price_drop_percentage.
  destruct (Float.leb average_price (Fin 0)) eqn:E.
  - exists (Fin 0). split; reflexivity.
  - unfold FloatArith.div.
    assert (Hz : Float.is_zero average_price = false).
    { destruct average_price as [a | | |]; try reflexivity. simpl in *.
      destruct (Qeq_bool a 0) eqn:Ez; [| reflexivity].
      apply Qeq_bool_iff in Ez.
      assert (Hle : Qle_bool a 0 = true) by (apply Qle_bool_iff; rewrite Ez; apply Qle_refl).
      congruence. }
    rewrite Hz. cbn [bind]. eexists. split; [reflexivity | discriminate].
Qed.

(** A price equal to a positive average is a drop of 0.0 exactly. *)
Theorem price_drop_of_equal_prices (a : Q) :
  (0 < a)%Q ->
  EmailTasks.calculate_price_drop_percentage (Fin a) (Fin a) = Ok (Fin 0).
Proof.
  intros H. unfold EmailTasks.calculate_price_drop_percentage.
  destruct (positive_not_below_zero H) as [-> Hz].
  unfold FloatArith.div. rewrite Hz. cbn [bind FloatArith.sub].
  rewrite (binary64_zero (a - a)) by (simpl; lia).
  rewrite (binary64_zero (0 / a)) by reflexivity.
  cbn [FloatArith.mul]. rewrite (binary64_zero (0 * 100)) by reflexivity. reflexivity.
Qed.

Lemma price_drop_of_equal_prices_example :
  EmailTasks.calculate_price_drop_percentage (Fin 100) (Fin 100) = Ok (Fin 0).
Proof.
  apply price_drop_of_equal_prices. reflexivity.
Defined.

Lemma mul_hundred_sign (r : pyfloat) :
  (Spec.float_nonneg r -> Spec.float_nonneg (FloatArith.mul r (Fin 100)))
  /\ (Spec.float_nonpos r -> Spec.float_nonpos (FloatArith.mul r (Fin 100))).
Proof.
  destruct r as [x | | |]; simpl; try (split; intros H; first [exact I | contradiction]).
  split; intros H; apply binary64_sign; unfold Qle in H; simpl in *; lia.
Qed.

Lemma div_positive_sign (d : pyfloat) (a : Q) :
  (0 < a)%Q ->
  exists r, FloatArith.div d (Fin a) = Ok r
            /\ (Spec.float_nonneg d -> Spec.float_nonneg r)
            /\ (Spec.float_nonpos d -> Spec.float_nonpos r).
Proof.
  intros Ha. unfold FloatArith.div.
  destruct (positive_not_below_zero Ha) as [_ ->].
  assert (Hn : (0 < Qnum a)%Z) by (unfold Qlt in Ha; simpl in Ha; lia).
  eexists. split; [reflexivity |].
  destruct d as [x | | |]; simpl.
  - split; intros H; apply binary64_sign; unfold Qle in H; simpl in H;
      unfold Qdiv, Qinv; destruct (Qnum a) as [| pa | pa]; try lia; simpl; nia.
  - rewrite (Z.sgn_pos _ Hn). simpl. split; intros H; [exact I | contradiction].
  - rewrite (Z.sgn_pos _ Hn). simpl. split; intros H; [contradiction | exact I].
  - split; intros H; contradiction.
Qed.

(** Against a positive average, a price that is not above it gives a
    percentage that is not negative, and a price that is not below it
    gives one that is not positive: rounding never turns a drop into a
    rise. *)
Theorem price_drop_sign (c a : Q) :
  (0 < a)%Q ->
  exists r,
    EmailTasks.calculate_price_drop_percentage (Fin c) (Fin a) = Ok r
    /\ ((c <= a)%Q -> Spec.float_nonneg r)
    /\ ((a <= c)%Q -> Spec.float_nonpos r).
Proof.
  intros Ha. unfold EmailTasks.calculate_price_drop_percentage.
  destruct (positive_not_below_zero Ha) as [-> _].
  destruct (div_positive_sign (FloatArith.sub (Fin a) (Fin c)) Ha) as [r [-> [Hp Hn]]].
  cbn [bind]. eexists. split; [reflexivity |].
  split; intros H.
  - apply mul_hundred_sign, Hp. cbn [FloatArith.sub]. apply binary64_sign.
    unfold Qle in H. simpl. lia.
  - apply mul_hundred_sign, Hn. cbn [FloatArith.sub]. apply binary64_sign.
    unfold Qle in H. simpl. lia.
Qed.

Lemma price_drop_sign_example :
  exists r,
    EmailTasks.calculate_price_drop_percentage (Fin 80) (Fin 100) = Ok r
    /\ ((80 <= 100)%Q -> Spec.float_nonneg r)
    /\ ((100 <= 80)%Q -> Spec.float_nonpos r).
Proof.
  apply price_drop_sign. reflexivity.
Defined.

End PriceDrop.

(** ** Lists of items and of offers *)

Section Composition.

Variable repr : pyval -> pystr.

(** The items of a JSON-LD list are taken one after the other: the
    result on two lists joined is the result on the first unless that
    is [None], and then the result on the second.  An exception in the
    first list is the result, the second list not being looked at. *)
Theorem jsonld_items_in_order (l1 l2 : list pyval) :
  JsonLdAdapter._extract_from_jsonld repr (l1 ++ l2) =
    match JsonLdAdapter._extract_from_jsonld repr l1 with
    | Ok None => JsonLdAdapter._extract_from_jsonld repr l2
    | r => r
    end.
Proof.
  induction l1 as [| item rest IH]; [reflexivity |].
  cbn [app JsonLdAdapter._extract_from_jsonld].
  destruct item as [| b | z | f | s | l | d]; try exact IH.
  match goal with
  | |- context [bind ?x _] => destruct x as [item_type | e]
  end; cbn [bind]; [| reflexivity].
  destruct (contains (lit "Product") (Py.str repr item_type)); [| exact IH].
  match goal with
  | |- context [bind ?x _] => destruct x as [[p |] | e]
  end; cbn [bind]; [| exact IH | reflexivity].
  destruct (Py.truthy _); [reflexivity | exact IH].
Qed.

(** The same for the items of a microdata list. *)
Theorem microdata_items_in_order (l1 l2 : list pyval) :
  JsonLdAdapter._extract_from_microdata repr (l1 ++ l2) =
    match JsonLdAdapter._extract_from_microdata repr l1 with
    | Ok None => JsonLdAdapter._extract_from_microdata repr l2
    | r => r
    end.
Proof.
  induction l1 as [| item rest IH]; [reflexivity |].
  cbn [app JsonLdAdapter._extract_from_microdata].
  destruct item as [| b | z | f | s | l | d]; try exact IH.
  destruct (contains (lit "Product") _); [| exact IH].
  match goal with
  | |- context [bind ?x _] => destruct x as [offers | e]
  end; cbn [bind]; [| reflexivity].
  match goal with
  | |- context [bind ?x _] => destruct x as [[info |] | e]
  end; cbn [bind]; [reflexivity | exact IH | reflexivity].
Qed.

End Composition.

(** An [offers] value that is not a list is handled in JSON-LD as the
    one-element list that holds it: a single offer object gives the
    price its list would give, and any other value gives nothing
    either way. *)
Theorem jsonld_single_value_as_list (offers : pyval) :
  (forall l, offers <> VList l) ->
  JsonLdAdapter._extract_price_from_offers offers
  = JsonLdAdapter._extract_price_from_offers (VList [offers]).
Proof.
  intros H. destruct offers as [| b | z | f | s | l | d];
    try (unfold JsonLdAdapter._extract_price_from_offers;
         destruct (negb (Py.truthy _)); reflexivity).
  - exfalso. apply (H l). reflexivity.
  - destruct d; reflexivity.
Qed.

Lemma jsonld_single_value_as_list_example :
  JsonLdAdapter._extract_price_from_offers (Examples.price_offer (VStr (lit "25.00")))
  = JsonLdAdapter._extract_price_from_offers
      (VList [Examples.price_offer (VStr (lit "25.00"))]).
Proof.
  apply jsonld_single_value_as_list. discriminate.
Defined.
